(** * The SimpleAPI RCV synchronisation endpoint (api/simple-rcv.js)

    A shallow embedding of the serverless function that fetches the sales
    and purchase register from SimpleAPI, reconciles every document with
    the tables [facturas_emitidas] and [facturas_recibidas], and writes a
    summary row to [sii_sync_log].  The repository holds a second, older
    variant of the file; its reconcilers are the same but for one column,
    and they are covered too.

    JavaScript numbers are IEEE-754 doubles ([float]).  The datastore
    client and [fetch] are modelled by an environment that decides the
    outcome of every outbound call, and by a world that holds the tables
    and the history of the calls made so far. *)

From Stdlib Require Import ZArith QArith Qround Qabs List String Ascii Floats Lia Bool DecimalString.
From stdpp Require Import base list strings.

Local Open Scope string_scope.
Local Open Scope list_scope.

(** ** JavaScript values *)

(** The scalar values a JSON document can hold in one of its fields. *)
Inductive valor : Type :=
  | VUndefined
  | VNull
  | VBool (b : bool)
  | VNum (x : float)
  | VStr (s : string).

(** ToBoolean: [undefined], [null], [false], [0], [-0], [NaN] and the empty
    string are falsy. *)
Definition truthy (v : valor) : bool :=
  match v with
  | VUndefined | VNull => false
  | VBool b => b
  | VNum x => negb (is_nan x || is_zero x)
  | VStr s => negb (String.eqb s "")
  end.

(** [a || b]. *)
Definition js_or (a b : valor) : valor := if truthy a then a else b.

(** Decimal rendering of an integer inside a template literal: what
    JavaScript prints for an integral number of magnitude below 10^21 (a
    greater one is printed with an exponent). *)
Definition decimal (z : Z) : string := NilZero.string_of_int (Z.to_int z).

(** [Math.round]: the integral number closest to [x], the one closer to
    +infinity on a tie; [NaN], the infinities, both zeros and integral
    numbers are returned unchanged, and a result of zero keeps the sign of
    [x].  A finite non-zero double is [(-1)^s * m * 2^e]; for [e < 0] the
    result is [floor (x + 1/2)] computed exactly on integers. *)
Definition Math_round (x : float) : float :=
  match Prim2SF x with
  | S754_finite s m e =>
      if (0 <=? e)%Z then x
      else
        let sm := if s then Z.neg m else Z.pos m in
        let n := Z.shiftr (2 * sm + 2 ^ (- e))%Z (1 - e)%Z in
        match n with
        | Z0 => if s then neg_zero else zero
        | Z.pos p => SF2Prim (S754_finite false p 0)
        | Z.neg p => SF2Prim (S754_finite true p 0)
        end
  | _ => x
  end.

(** [Math.round((montoTotal / ufActual) * 100) / 100], each operation
    rounded to double as JavaScript does. *)
Definition monto_en_uf (montoTotal ufActual : float) : float :=
  (Math_round ((montoTotal / ufActual) * 100) / 100)%float.

(** ** Strings *)

(** [s.split(sep)] for a separator of one character. *)
Fixpoint split (sep : ascii) (s : string) : list string :=
  match s with
  | EmptyString => [EmptyString]
  | String c s' =>
      if Ascii.eqb c sep then EmptyString :: split sep s'
      else match split sep s' with
           | [] => [String c EmptyString]
           | p :: ps => String c p :: ps
           end
  end.

(** [\d]. *)
Definition es_digito (c : ascii) : bool :=
  let n := nat_of_ascii c in (48 <=? n)%nat && (n <=? 57)%nat.

(** [/^\d{4}-\d{2}$/.test(s)]. *)
Definition test_periodo (s : string) : bool :=
  match list_ascii_of_string s with
  | [a; b; c; d; g; e; f] =>
      es_digito a && es_digito b && es_digito c && es_digito d &&
      Ascii.eqb g "-" && es_digito e && es_digito f
  | _ => false
  end.

(** [arr.join(sep)]. *)
Fixpoint join (sep : string) (l : list string) : string :=
  match l with
  | [] => ""
  | [x] => x
  | x :: xs => x +:+ sep +:+ join sep xs
  end.

(** ** Data *)

(** One element of [detalleVentas] or [detalleCompras] that is an object
    (an element that is [null] is introduced with [Elemento] below).  The
    folio is the document number, an integer that a double holds exactly
    and that is printed in full (its magnitude is below 2^53), and
    [montoTotal] a number; the other fields are passed on as they arrive,
    whatever scalar they hold. *)
Module Doc.
Record t : Type := mk {
    folio : Z;
    razonSocial : valor;
    rutCliente : valor;
    rutProveedor : valor;
    fechaEmision : valor;
    montoTotal : float;
    estado : valor;
    tipoDTE : valor
  }.
End Doc.

(** A row of [facturas_emitidas] or [facturas_recibidas].  [contraparte] is
    the column [cliente] (sales) or [proveedor] (purchases) and
    [rut_contraparte] the column [rut_cliente] or [rut_proveedor];
    [numero_factura] is written only by the older variant of the handler
    and [categoria] only for purchases.  The primary key [id] of a row is
    its position in the table. *)
Module Factura.
Record t : Type := mk {
    numero_folio : Z;
    numero_factura : option Z;
    contraparte : valor;
    rut_contraparte : valor;
    fecha_emision : valor;
    monto_clp : float;
    monto_uf : float;
    estado : valor;
    origen : string;
    tipo_documento : valor;
    categoria : option string;
    actualizado_sii : string
  }.

  (** The effect of [.update({monto_clp, monto_uf, actualizado_sii})] on
      one row. *)
Definition update (clp uf : float) (ts : string) (r : t) : t :=
    {| numero_folio := numero_folio r;
       numero_factura := numero_factura r;
       contraparte := contraparte r;
       rut_contraparte := rut_contraparte r;
       fecha_emision := fecha_emision r;
       monto_clp := clp;
       monto_uf := uf;
       estado := estado r;
       origen := origen r;
       tipo_documento := tipo_documento r;
       categoria := categoria r;
       actualizado_sii := ts |}.
End Factura.

(** A row of [sii_sync_log]. *)
Module SyncLog.
Record t : Type := mk {
    tipo_sync : string;
    periodo : string;
    documentos_nuevos : nat;
    documentos_actualizados : nat;
    errores : option string;
    estado : string;
    usuario_email : option string
  }.
End SyncLog.

(** A row of [uf_valores]; [fecha] is a day number. *)
Module UfValor.
Record t : Type := mk { fecha : Z; valor : float }.
End UfValor.

(** The summary [{ nuevos, actualizados, errores }] of a reconciliation. *)
Module Resumen.
Record t : Type := mk {
    nuevos : nat;
    actualizados : nat;
    errores : list string
  }.
Definition cero : t := mk 0 0 [].
End Resumen.

(** The four values read from [process.env]. *)
Module Credenciales.
Record t : Type := mk {
    apiKey : option string;
    rutUsuario : option string;
    passwordSII : option string;
    rutEmpresa : option string
  }.
End Credenciales.

(** What [consultarRCV] returns, and what the parsed body of the remote
    answer holds: [None] stands for a missing [ventas.detalleVentas]
    (or [compras.detalleCompras]). *)
Module Rcv.
Record json : Type := mk_json {
    detalleVentas : option (list Doc.t);
    detalleCompras : option (list Doc.t)
  }.
Record t : Type := mk { ventas : list Doc.t; compras : list Doc.t }.
End Rcv.

(** An exception carries the [message] of the thrown [Error]. *)
Definition excepcion (A : Type) : Type := (string + A)%type.

(** The answer of the remote service: [json] is the outcome of
    [response.json()]. *)
Module Response.
Record t : Type := mk {
    status : Z;
    text : string;
    json : excepcion Rcv.json
  }.
Definition ok (r : t) : bool := (200 <=? status r)%Z && (status r <=? 299)%Z.
End Response.

(** The request as the platform hands it over: [body] is absent when the
    request carried none. *)
Module Request.
Record json : Type := mk_json {
  periodo : option string;
  userEmail : option string
}.
Record t : Type := mk { method : string; body : option json }.
End Request.

(** One half of the answer: [{ total, nuevas, actualizadas, errores }]. *)
Module Lado.
Record t : Type := mk {
  total : nat;
  nuevas : nat;
  actualizadas : nat;
  errores : list string
}.
End Lado.

(** The body of the 200 answer ([success: true]). *)
Module Exito.
Record t : Type := mk {
  periodo : string;
  uf_utilizada : float;
  emitidas : Lado.t;
  recibidas : Lado.t;
  message : string
}.
End Exito.

(** What is sent back: nothing ([.end()]), [{ error }],
    [{ success: false, error }] or the summary. *)
Inductive Cuerpo : Type :=
  | SinCuerpo
  | CuerpoError (error : string)
  | CuerpoFallo (error : string)
  | CuerpoExito (e : Exito.t).

Module Res.
Record t : Type := mk {
  status : Z;
  headers : list (string * string);
  cuerpo : Cuerpo
}.
End Res.

(** [fetch] either rejects (no answer at all) or resolves to a response. *)
Inductive Fetch : Type :=
  | FetchRechazado (mensaje : string)
  | FetchRespuesta (r : Response.t).

(** ** The world and its environment *)

(** An outbound call: a query of the datastore client or a [fetch]. *)
Inductive Llamada : Type :=
  | LSelect (tabla : string)
  | LUpdate (tabla : string) (id : nat)
  | LInsert (tabla : string)
  | LFetch (url : string) (cred : Credenciales.t).

(** The tables, and the outbound calls made so far (oldest first). *)
Record Mundo : Type := mkMundo {
  t_emitidas : list Factura.t;
  t_recibidas : list Factura.t;
  t_sync_log : list SyncLog.t;
  t_uf : list UfValor.t;
  llamadas : list Llamada
}.

(** What the code does not control, as a function of the number of calls
    made before: whether the datastore answers a query with an error (and
    its message), what [fetch] yields, what [new Date().toISOString()]
    reads; and the process environment. *)
Record Entorno : Type := mkEntorno {
  falla : Llamada -> nat -> option string;
  red : nat -> Fetch;
  reloj : nat -> string;
  env : Credenciales.t
}.

(** The two invoice tables. *)
Inductive TablaFacturas : Type := facturas_emitidas | facturas_recibidas.

Definition nombre (t : TablaFacturas) : string :=
  match t with
  | facturas_emitidas => "facturas_emitidas"
  | facturas_recibidas => "facturas_recibidas"
  end.

Definition filas (t : TablaFacturas) (w : Mundo) : list Factura.t :=
  match t with
  | facturas_emitidas => t_emitidas w
  | facturas_recibidas => t_recibidas w
  end.

Definition con_filas (t : TablaFacturas) (l : list Factura.t) (w : Mundo) : Mundo :=
  match t with
  | facturas_emitidas =>
      mkMundo l (t_recibidas w) (t_sync_log w) (t_uf w) (llamadas w)
  | facturas_recibidas =>
      mkMundo (t_emitidas w) l (t_sync_log w) (t_uf w) (llamadas w)
  end.

Definition con_sync_log (l : list SyncLog.t) (w : Mundo) : Mundo :=
  mkMundo (t_emitidas w) (t_recibidas w) l (t_uf w) (llamadas w).

Definition anotar (c : Llamada) (w : Mundo) : Mundo :=
  mkMundo (t_emitidas w) (t_recibidas w) (t_sync_log w) (t_uf w)
          (llamadas w ++ [c]).

(** ** Computations: state and exceptions *)

Definition M (A : Type) : Type := Mundo -> excepcion A * Mundo.

Definition ret {A : Type} (a : A) : M A := fun w => (inr a, w).

Definition bind {A B : Type} (c : M A) (k : A -> M B) : M B :=
  fun w =>
    match c w with
    | (inl m, w') => (inl m, w')
    | (inr a, w') => k a w'
    end.

Definition throw {A : Type} (m : string) : M A := fun w => (inl m, w).

(** [try { c } catch (error) { h error.message }]. *)
Definition try_catch {A : Type} (c : M A) (h : string -> M A) : M A :=
  fun w =>
    match c w with
    | (inl m, w') => h m w'
    | (inr a, w') => (inr a, w')
    end.

Definition leer : M Mundo := fun w => (inr w, w).

Definition modificar (f : Mundo -> Mundo) : M unit := fun w => (inr tt, f w).

Definition elevar {A : Type} (x : excepcion A) : M A := fun w => (x, w).

Notation "x <- c ;; k" := (bind c (fun x => k))
  (at level 100, c at next level, right associativity).

(** ** The datastore client

    A query resolves to [{ data, error }] and never rejects (the code never
    asks for [throwOnError]); a query answered with an error leaves the
    tables as they were. *)

(** [.single()]: the row when the filter selects exactly one, no data
    otherwise. *)
Definition single {A : Type} (l : list A) : option A :=
  match l with
  | [x] => Some x
  | _ => None
  end.

(** [.eq('numero_folio', f).eq('origen', 'SimpleAPI')]. *)
Definition coincide (f : Z) (r : Factura.t) : bool :=
  (Factura.numero_folio r =? f)%Z && String.eqb (Factura.origen r) "SimpleAPI".

(** The ids of the rows that a filter selects, for a table whose first row
    has id [n]. *)
Fixpoint ids_desde (p : Factura.t -> bool) (n : nat) (l : list Factura.t) : list nat :=
  match l with
  | [] => []
  | r :: l' => if p r then n :: ids_desde p (S n) l' else ids_desde p (S n) l'
  end.

Definition ids (p : Factura.t -> bool) (l : list Factura.t) : list nat :=
  ids_desde p 0 l.

(** [.order('fecha', { ascending: false }).limit(1)]: a row of the greatest
    [fecha] (the first such row of the table). *)
Fixpoint mas_reciente (l : list UfValor.t) : option UfValor.t :=
  match l with
  | [] => None
  | r :: l' =>
      match mas_reciente l' with
      | None => Some r
      | Some r' => if (UfValor.fecha r' <=? UfValor.fecha r)%Z then Some r else Some r'
      end
  end.

Section Programa.

Variable E : Entorno.

(** Issue a call: it is answered by the environment and recorded. *)
Definition llamar (c : Llamada) : M (option string) :=
  fun w => (inr (falla E c (length (llamadas w))), anotar c w).

(** [new Date().toISOString()]. *)
Definition ahora : M string :=
  fun w => (inr (reloj E (length (llamadas w))), w).

(** [await fetch(url, ...)]. *)
Definition fetch (url : string) (cred : Credenciales.t) : M Response.t :=
  fun w =>
    match red E (length (llamadas w)) with
    | FetchRechazado m => (inl m, anotar (LFetch url cred) w)
    | FetchRespuesta r => (inr r, anotar (LFetch url cred) w)
    end.

(** [const { data: existe } = await supabase.from(t).select('id')
    .eq('numero_folio', f).eq('origen', 'SimpleAPI').single()]: the id
    found, if any.  The [error] of the answer is not read. *)
Definition select_id (t : TablaFacturas) (f : Z) : M (option nat) :=
  e <- llamar (LSelect (nombre t)) ;;
  w <- leer ;;
  ret (match e with
       | Some _ => None
       | None => single (ids (coincide f) (filas t w))
       end).

(** [await supabase.from(t).update({monto_clp, monto_uf, actualizado_sii})
    .eq('id', id)]: the [error] of the answer, if any. *)
Definition update_montos (t : TablaFacturas) (id : nat)
    (clp uf : float) (ts : string) : M (option string) :=
  e <- llamar (LUpdate (nombre t) id) ;;
  match e with
  | Some m => ret (Some m)
  | None =>
      _ <- modificar (fun w =>
             con_filas t (alter (Factura.update clp uf ts) id (filas t w)) w) ;;
      ret None
  end.

(** [await supabase.from(t).insert([factura])]: the [error] of the answer,
    if any. *)
Definition insert_factura (t : TablaFacturas) (factura : Factura.t) : M (option string) :=
  e <- llamar (LInsert (nombre t)) ;;
  match e with
  | Some m => ret (Some m)
  | None =>
      _ <- modificar (fun w => con_filas t (filas t w ++ [factura]) w) ;;
      ret None
  end.

(** ** getUFActual *)

Definition getUFActual : M float :=
  e <- llamar (LSelect "uf_valores") ;;
  w <- leer ;;
  let data := match e with
              | Some _ => None
              | None => mas_reciente (t_uf w)
              end in
  ret (match data with
       | Some d => if truthy (VNum (UfValor.valor d)) then UfValor.valor d else 38000%float
       | None => 38000%float
       end).

(** ** consultarRCV *)

Definition consultarRCV (mes año : string) (credentials : Credenciales.t) : M Rcv.t :=
  let url := "https://servicios.simpleapi.cl/api/RCV/ventas/" +:+ mes +:+ "/" +:+ año in
  response <- fetch url credentials ;;
  if negb (Response.ok response) then
    throw ("Error SimpleAPI: " +:+ decimal (Response.status response)
           +:+ " - " +:+ Response.text response)
  else
    data <- elevar (Response.json response) ;;
    ret {| Rcv.ventas := default [] (Rcv.detalleVentas data);
           Rcv.compras := default [] (Rcv.detalleCompras data) |}.

(** ** The reconcilers *)

(** The three reconcilers of the repository: [procesarFacturasEmitidas] and
    [procesarFacturasRecibidas] of api/simple-rcv.js (the latter is the
    same in the older variant of the file), and the older
    [procesarFacturasEmitidas], which also writes [numero_factura]. *)
Inductive Variante : Type := Emitidas | Recibidas | EmitidasAnterior.

Definition tabla_de (v : Variante) : TablaFacturas :=
  match v with
  | Emitidas | EmitidasAnterior => facturas_emitidas
  | Recibidas => facturas_recibidas
  end.

(** The message of the [TypeError] raised when [split] is called on a
    value that has no such method (the wording is the engine's). *)
Definition no_es_funcion : string := "doc.fechaEmision?.split is not a function".

(** [doc.fechaEmision?.split('T')[0] || null]. *)
Definition fecha_emision_de (v : valor) : excepcion valor :=
  match v with
  | VUndefined | VNull => inr VNull
  | VStr s => inr (js_or (VStr (hd "" (split "T" s))) VNull)
  | VBool _ | VNum _ => inl no_es_funcion
  end.

(** The object literal [factura], once [fecha_emision] and the timestamp
    have been evaluated. *)
Definition factura (v : Variante) (doc : Doc.t) (ufActual : float)
    (fecha : valor) (ts : string) : Factura.t :=
  match v with
  | Emitidas =>
      {| Factura.numero_folio := Doc.folio doc;
         Factura.numero_factura := None;
         Factura.contraparte := js_or (Doc.razonSocial doc) (VStr "Cliente");
         Factura.rut_contraparte := Doc.rutCliente doc;
         Factura.fecha_emision := fecha;
         Factura.monto_clp := Doc.montoTotal doc;
         Factura.monto_uf := monto_en_uf (Doc.montoTotal doc) ufActual;
         Factura.estado := js_or (Doc.estado doc) (VStr "Emitida");
         Factura.origen := "SimpleAPI";
         Factura.tipo_documento := Doc.tipoDTE doc;
         Factura.categoria := None;
         Factura.actualizado_sii := ts |}
  | EmitidasAnterior =>
      {| Factura.numero_folio := Doc.folio doc;
         Factura.numero_factura := Some (Doc.folio doc);
         Factura.contraparte := js_or (Doc.razonSocial doc) (VStr "Cliente");
         Factura.rut_contraparte := Doc.rutCliente doc;
         Factura.fecha_emision := fecha;
         Factura.monto_clp := Doc.montoTotal doc;
         Factura.monto_uf := monto_en_uf (Doc.montoTotal doc) ufActual;
         Factura.estado := js_or (Doc.estado doc) (VStr "Emitida");
         Factura.origen := "SimpleAPI";
         Factura.tipo_documento := Doc.tipoDTE doc;
         Factura.categoria := None;
         Factura.actualizado_sii := ts |}
  | Recibidas =>
      {| Factura.numero_folio := Doc.folio doc;
         Factura.numero_factura := None;
         Factura.contraparte := js_or (Doc.razonSocial doc) (VStr "Proveedor");
         Factura.rut_contraparte := Doc.rutProveedor doc;
         Factura.fecha_emision := fecha;
         Factura.monto_clp := Doc.montoTotal doc;
         Factura.monto_uf := monto_en_uf (Doc.montoTotal doc) ufActual;
         Factura.estado := js_or (Doc.estado doc) (VStr "Recibida");
         Factura.origen := "SimpleAPI";
         Factura.tipo_documento := Doc.tipoDTE doc;
         Factura.categoria := Some "Servicios";
         Factura.actualizado_sii := ts |}
  end.

(** [const factura = { ... }]: the fields are evaluated in order, so the
    clock is read only when [fecha_emision] did not raise. *)
Definition factura_de (v : Variante) (doc : Doc.t) (ufActual : float) : M Factura.t :=
  fecha <- elevar (fecha_emision_de (Doc.fechaEmision doc)) ;;
  ts <- ahora ;;
  ret (factura v doc ufActual fecha ts).

(** [`Folio ${doc.folio}: ${error.message}`]. *)
Definition mensaje_folio (doc : Doc.t) (m : string) : string :=
  "Folio " +:+ decimal (Doc.folio doc) +:+ ": " +:+ m.

(** [nuevos++], [actualizados++], [errores.push(e)]. *)
Definition mas_nuevo (r : Resumen.t) : Resumen.t :=
  Resumen.mk (S (Resumen.nuevos r)) (Resumen.actualizados r) (Resumen.errores r).

Definition mas_actualizado (r : Resumen.t) : Resumen.t :=
  Resumen.mk (Resumen.nuevos r) (S (Resumen.actualizados r)) (Resumen.errores r).

Definition mas_error (e : string) (r : Resumen.t) : Resumen.t :=
  Resumen.mk (Resumen.nuevos r) (Resumen.actualizados r) (Resumen.errores r ++ [e]).

(** The body of the [try] block for one document; [r] holds the counters
    and the errors so far. *)
Definition intentar (v : Variante) (ufActual : float) (r : Resumen.t) (doc : Doc.t)
    : M Resumen.t :=
  factura <- factura_de v doc ufActual ;;
  existe <- select_id (tabla_de v) (Doc.folio doc) ;;
  match existe with
  | Some id =>
      _ <- update_montos (tabla_de v) id (Factura.monto_clp factura)
             (Factura.monto_uf factura) (Factura.actualizado_sii factura) ;;
      ret (mas_actualizado r)
  | None =>
      error <- insert_factura (tabla_de v) factura ;;
      match error with
      | Some m => ret (mas_error (mensaje_folio doc m) r)
      | None => ret (mas_nuevo r)
      end
  end.

(** One turn of the loop: the [try] block and its [catch]. *)
Definition procesarDocumento (v : Variante) (ufActual : float) (r : Resumen.t)
    (doc : Doc.t) : M Resumen.t :=
  try_catch (intentar v ufActual r doc)
            (fun m => ret (mas_error (mensaje_folio doc m) r)).

(** [for (const doc of documentos) { ... }]. *)
Fixpoint bucle (v : Variante) (ufActual : float) (documentos : list Doc.t)
    (r : Resumen.t) : M Resumen.t :=
  match documentos with
  | [] => ret r
  | doc :: resto =>
      r' <- procesarDocumento v ufActual r doc ;;
      bucle v ufActual resto r'
  end.

Definition procesarFacturas (v : Variante) (documentos : list Doc.t) (ufActual : float)
    : M Resumen.t :=
  bucle v ufActual documentos Resumen.cero.

Definition procesarFacturasEmitidas : list Doc.t -> float -> M Resumen.t :=
  procesarFacturas Emitidas.

Definition procesarFacturasRecibidas : list Doc.t -> float -> M Resumen.t :=
  procesarFacturas Recibidas.

(** [procesarFacturasEmitidas] of the older variant of the file. *)
Definition procesarFacturasEmitidas_anterior : list Doc.t -> float -> M Resumen.t :=
  procesarFacturas EmitidasAnterior.

(** ** registrarSync *)

(** The row that [registrarSync] inserts. *)
Definition fila_sync (tipo periodo : string) (resultado : Resumen.t)
    (userEmail : option string) : SyncLog.t :=
  let hay_errores := (0 <? length (Resumen.errores resultado))%nat in
  {| SyncLog.tipo_sync := tipo;
     SyncLog.periodo := periodo;
     SyncLog.documentos_nuevos := Resumen.nuevos resultado;
     SyncLog.documentos_actualizados := Resumen.actualizados resultado;
     SyncLog.errores :=
       if hay_errores then Some (join "; " (Resumen.errores resultado)) else None;
     SyncLog.estado := if hay_errores then "parcial" else "exitoso";
     SyncLog.usuario_email := userEmail |}.

(** The answer of the insert is not read. *)
Definition registrarSync (tipo periodo : string) (resultado : Resumen.t)
    (userEmail : option string) : M unit :=
  e <- llamar (LInsert "sii_sync_log") ;;
  match e with
  | Some _ => ret tt
  | None =>
      modificar (fun w =>
        con_sync_log (t_sync_log w ++ [fila_sync tipo periodo resultado userEmail]) w)
  end.

(** ** The handler *)

Definition cabeceras : list (string * string) :=
  [("Access-Control-Allow-Origin", "*");
   ("Access-Control-Allow-Methods", "GET, POST, OPTIONS");
   ("Access-Control-Allow-Headers", "Content-Type")].

Definition responder (status : Z) (c : Cuerpo) : Res.t := Res.mk status cabeceras c.

Definition comillas : string := String (ascii_of_nat 34) "".

Definition periodo_requerido : string :=
  "Parámetro " +:+ comillas +:+ "periodo" +:+ comillas
  +:+ " requerido (formato: YYYY-MM)".

(** The message of the [TypeError] raised by [const { periodo, userEmail }
    = req.body] when there is no body (the wording is the engine's). *)
Definition sin_body : string :=
  "Cannot destructure property 'periodo' of 'req.body' as it is undefined.".

Definition lado (total : nat) (r : Resumen.t) : Lado.t :=
  Lado.mk total (Resumen.nuevos r) (Resumen.actualizados r) (Resumen.errores r).

Definition mensaje_final (e r : Resumen.t) : string :=
  "Sincronización completada: "
  +:+ decimal (Z.of_nat (Resumen.nuevos e + Resumen.nuevos r)) +:+ " nuevas, "
  +:+ decimal (Z.of_nat (Resumen.actualizados e + Resumen.actualizados r))
  +:+ " actualizadas".

(** [if (documentos.length > 0) { resultado = await procesar(documentos,
    ufActual); await registrarSync(tipo, periodo, resultado, userEmail) }],
    starting from [{ nuevos: 0, actualizados: 0, errores: [] }]. *)
Definition rama (procesar : list Doc.t -> float -> M Resumen.t) (tipo : string)
    (documentos : list Doc.t) (ufActual : float) (periodo : string)
    (userEmail : option string) : M Resumen.t :=
  if (0 <? length documentos)%nat then
    resultado <- procesar documentos ufActual ;;
    _ <- registrarSync tipo periodo resultado userEmail ;;
    ret resultado
  else ret Resumen.cero.

(** The [try] block of the handler. *)
Definition intentar_handler (req : Request.t) : M Res.t :=
  if negb (String.eqb (Request.method req) "POST") then
    ret (responder 405 (CuerpoError "Método no permitido"))
  else
    b <- elevar (match Request.body req with
                 | Some b => inr b
                 | None => inl sin_body
                 end) ;;
    match Request.periodo b with
    | None => ret (responder 400 (CuerpoError periodo_requerido))
    | Some periodo =>
        if negb (truthy (VStr periodo)) || negb (test_periodo periodo) then
          ret (responder 400 (CuerpoError periodo_requerido))
        else
          let partes := split "-" periodo in
          let año := nth 0 partes "undefined" in
          let mes := nth 1 partes "undefined" in
          let credentials := env E in
          ufActual <- getUFActual ;;
          rcv <- consultarRCV mes año credentials ;;
          let ventasArray := Rcv.ventas rcv in
          resultadoEmitidas <-
            rama procesarFacturasEmitidas "facturas_emitidas" ventasArray ufActual
                 periodo (Request.userEmail b) ;;
          let comprasArray := Rcv.compras rcv in
          resultadoRecibidas <-
            rama procesarFacturasRecibidas "facturas_recibidas" comprasArray ufActual
                 periodo (Request.userEmail b) ;;
          ret (responder 200 (CuerpoExito
                 {| Exito.periodo := periodo;
                    Exito.uf_utilizada := ufActual;
                    Exito.emitidas := lado (length ventasArray) resultadoEmitidas;
                    Exito.recibidas := lado (length comprasArray) resultadoRecibidas;
                    Exito.message := mensaje_final resultadoEmitidas resultadoRecibidas |}))
    end.

(** [module.exports = async (req, res) => ...]: the answer sent and the
    world left behind. *)
Definition handler (req : Request.t) (w : Mundo) : Res.t * Mundo :=
  if String.eqb (Request.method req) "OPTIONS" then (responder 200 SinCuerpo, w)
  else
    match intentar_handler req w with
    | (inr res, w') => (res, w')
    | (inl m, w') => (responder 500 (CuerpoFallo m), w')
    end.

End Programa.

(** * Notions used to state the properties *)

(** The answer that [select_id] gets in a given world. *)
Definition buscar (E : Entorno) (t : TablaFacturas) (f : Z) (w : Mundo) : option nat :=
  match falla E (LSelect (nombre t)) (length (llamadas w)) with
  | Some _ => None
  | None => single (ids (coincide f) (filas t w))
  end.

(** At most one row per [(numero_folio, origen = 'SimpleAPI')]. *)
Definition una_por_folio (l : list Factura.t) : Prop :=
  forall f : Z, length (ids (coincide f) l) <= 1.

(** The datastore answers every [select]. *)
Definition select_fiable (E : Entorno) : Prop :=
  forall (t : string) (n : nat), falla E (LSelect t) n = None.

(** Adding up two summaries. *)
Definition sumar (a b : Resumen.t) : Resumen.t :=
  Resumen.mk (Resumen.nuevos a + Resumen.nuevos b)
             (Resumen.actualizados a + Resumen.actualizados b)
             (Resumen.errores a ++ Resumen.errores b).

(** The world after the write of one turn: [escrito] is what the table
    becomes when the datastore accepts the write. *)
Definition tras_escritura (E : Entorno) (t : TablaFacturas) (c : Llamada)
    (escrito : list Factura.t) (w : Mundo) : Mundo :=
  let w2 := anotar c (anotar (LSelect (nombre t)) w) in
  match falla E c (S (length (llamadas w))) with
  | Some _ => w2
  | None => con_filas t escrito w2
  end.

(** The three things a turn can do to the summary. *)
Inductive un_paso : Resumen.t -> Prop :=
  | paso_nuevo : un_paso (mas_nuevo Resumen.cero)
  | paso_actualizado : un_paso (mas_actualizado Resumen.cero)
  | paso_error (e : string) : un_paso (mas_error e Resumen.cero).

(** The columns that an update must leave alone. *)
Definition mismas_columnas_fijas (a b : Factura.t) : Prop :=
  Factura.numero_folio a = Factura.numero_folio b /\
  Factura.numero_factura a = Factura.numero_factura b /\
  Factura.contraparte a = Factura.contraparte b /\
  Factura.rut_contraparte a = Factura.rut_contraparte b /\
  Factura.fecha_emision a = Factura.fecha_emision b /\
  Factura.estado a = Factura.estado b /\
  Factura.origen a = Factura.origen b /\
  Factura.tipo_documento a = Factura.tipo_documento b /\
  Factura.categoria a = Factura.categoria b.

(** The exact value of a finite double (0 for the others). *)
Definition exacto (x : float) : Q :=
  match Prim2SF x with
  | S754_finite s m e =>
      let sm := if s then Z.neg m else Z.pos m in
      if (0 <=? e)%Z then inject_Z (sm * 2 ^ e)
      else Qmake sm (Z.to_pos (2 ^ (- e)))
  | _ => 0%Q
  end.

(** The words of the specification taken exactly: [T / R] rounded to two
    decimal places (half up), as a rational number. *)
Definition redondeo_exacto (T R : Z) : Q :=
  Qmake (Qfloor (inject_Z T / inject_Z R * inject_Z 100 + (1 # 2))) 100.

(** A double stands for the two-decimal number [q] when it is less than
    half a hundredth away from it. *)
Definition es_redondeo (x : float) (q : Q) : Prop :=
  (Qabs (exacto x - q) < 1 # 200)%Q.

(** The rate that [getUFActual] yields in a given world. *)
Definition tasa (E : Entorno) (w : Mundo) : float :=
  match
    match falla E (LSelect "uf_valores") (length (llamadas w)) with
    | Some _ => None
    | None => mas_reciente (t_uf w)
    end
  with
  | Some d => if truthy (VNum (UfValor.valor d)) then UfValor.valor d else 38000%float
  | None => 38000%float
  end.

(** The address that [consultarRCV] queries for a period. *)
Definition url_de (periodo : string) : string :=
  "https://servicios.simpleapi.cl/api/RCV/ventas/" +:+ substring 5 2 periodo
  +:+ "/" +:+ substring 0 4 periodo.

(** The world when the handler has read the rate and queried the remote
    service for a period. *)
Definition tras_consulta (E : Entorno) (periodo : string) (w : Mundo) : Mundo :=
  anotar (LFetch (url_de periodo) (env E)) (anotar (LSelect "uf_valores") w).

(** A request that passes the validation of the handler. *)
Definition valida (req : Request.t) (b : Request.json) (periodo : string) : Prop :=
  Request.method req = "POST" /\
  Request.body req = Some b /\
  Request.periodo b = Some periodo /\
  test_periodo periodo = true.

(** What a reconciliation of the table [t] may change between two worlds:
    rows of [t] and the history of calls, which only grows. *)
Definition marco (t : TablaFacturas) (w w' : Mundo) : Prop :=
  (exists l, llamadas w' = llamadas w ++ l) /\
  t_sync_log w' = t_sync_log w /\
  t_uf w' = t_uf w /\
  (forall t', t' <> t -> filas t' w' = filas t' w).

(** ** Sample inputs *)

Definition doc_de (folio : Z) (monto : float) : Doc.t :=
  Doc.mk folio (VStr "Comercial Andes") (VStr "76.123.456-7") (VStr "77.654.321-0")
         (VStr "2026-01-15T10:30:00") monto VUndefined (VNum 33).

(** A row written by an earlier synchronisation of folio 100. *)
Definition fila_previa : Factura.t :=
  factura Emitidas (doc_de 100 1000) 38000 (VStr "2025-12-01")
          "2025-12-31T08:00:00.000Z".

Definition credenciales_ejemplo : Credenciales.t :=
  Credenciales.mk (Some "clave") (Some "12345678-9") (Some "secreto")
                  (Some "76.123.456-7").

Definition reloj_fijo (n : nat) : string := "2026-02-01T09:00:00.000Z".

Definition red_caida (n : nat) : Fetch := FetchRechazado "fetch failed".

Definition sin_fallas (c : Llamada) (n : nat) : option string := None.

(** Every [select] times out. *)
Definition falla_select (c : Llamada) (n : nat) : option string :=
  match c with
  | LSelect _ => Some "timeout"
  | _ => None
  end.

(** Every [update] is refused. *)
Definition falla_update (c : Llamada) (n : nat) : option string :=
  match c with
  | LUpdate _ _ => Some "permission denied"
  | _ => None
  end.

Definition entorno (f : Llamada -> nat -> option string) (r : nat -> Fetch) : Entorno :=
  mkEntorno f r reloj_fijo credenciales_ejemplo.

Definition mundo_con (emitidas : list Factura.t) (uf : list UfValor.t) : Mundo :=
  mkMundo emitidas [] [] uf [].

(** The insert is refused when it is the [k]-th call of the run. *)
Definition falla_insert_en (k : nat) (c : Llamada) (n : nat) : option string :=
  match c with
  | LInsert _ => if (n =? k)%nat then Some "duplicate key value" else None
  | _ => None
  end.

(** The remote service answers every query with the given status and
    text, and a body that is not JSON. *)
Definition red_estado (status : Z) (texto : string) (n : nat) : Fetch :=
  FetchRespuesta (Response.mk status texto (inl "Unexpected token U in JSON")).

(** The remote service answers 200 with the given documents. *)
Definition red_con (ventas compras : option (list Doc.t)) (n : nat) : Fetch :=
  FetchRespuesta (Response.mk 200 "" (inr (Rcv.mk_json ventas compras))).

Definition peticion (periodo : string) : Request.t :=
  Request.mk "POST" (Some (Request.mk_json (Some periodo) (Some "jere@tho.cl"))).

(** * The older variant of the file

    It queries sales and purchases with two requests, and reconciles the
    sales before it asks for the purchases. *)

Section Anterior.

Variable E : Entorno.

Definition consultarVentas (mes año : string) (credentials : Credenciales.t)
    : M (list Doc.t) :=
  let url := "https://servicios.simpleapi.cl/api/RCV/ventas/" +:+ mes +:+ "/" +:+ año in
  response <- fetch E url credentials ;;
  if negb (Response.ok response) then
    throw ("Error SimpleAPI ventas: " +:+ decimal (Response.status response)
           +:+ " - " +:+ Response.text response)
  else
    data <- elevar (Response.json response) ;;
    ret (default [] (Rcv.detalleVentas data)).

Definition consultarCompras (mes año : string) (credentials : Credenciales.t)
    : M (list Doc.t) :=
  let url := "https://servicios.simpleapi.cl/api/RCV/compras/" +:+ mes +:+ "/" +:+ año in
  response <- fetch E url credentials ;;
  if negb (Response.ok response) then
    throw ("Error SimpleAPI compras: " +:+ decimal (Response.status response)
           +:+ " - " +:+ Response.text response)
  else
    data <- elevar (Response.json response) ;;
    ret (default [] (Rcv.detalleCompras data)).

(** The [try] block of the older handler. *)
Definition intentar_handler_anterior (req : Request.t) : M Res.t :=
  if negb (String.eqb (Request.method req) "POST") then
    ret (responder 405 (CuerpoError "Método no permitido"))
  else
    b <- elevar (match Request.body req with
                 | Some b => inr b
                 | None => inl sin_body
                 end) ;;
    match Request.periodo b with
    | None => ret (responder 400 (CuerpoError periodo_requerido))
    | Some periodo =>
        if negb (truthy (VStr periodo)) || negb (test_periodo periodo) then
          ret (responder 400 (CuerpoError periodo_requerido))
        else
          let partes := split "-" periodo in
          let año := nth 0 partes "undefined" in
          let mes := nth 1 partes "undefined" in
          let credentials := env E in
          ufActual <- getUFActual E ;;
          ventas <- consultarVentas mes año credentials ;;
          resultadoEmitidas <-
            rama E (procesarFacturasEmitidas_anterior E) "facturas_emitidas" ventas
                 ufActual periodo (Request.userEmail b) ;;
          compras <- consultarCompras mes año credentials ;;
          resultadoRecibidas <-
            rama E (procesarFacturasRecibidas E) "facturas_recibidas" compras ufActual
                 periodo (Request.userEmail b) ;;
          ret (responder 200 (CuerpoExito
                 {| Exito.periodo := periodo;
                    Exito.uf_utilizada := ufActual;
                    Exito.emitidas := lado (length ventas) resultadoEmitidas;
                    Exito.recibidas := lado (length compras) resultadoRecibidas;
                    Exito.message := mensaje_final resultadoEmitidas resultadoRecibidas |}))
    end.

Definition handler_anterior (req : Request.t) (w : Mundo) : Res.t * Mundo :=
  if String.eqb (Request.method req) "OPTIONS" then (responder 200 SinCuerpo, w)
  else
    match intentar_handler_anterior req w with
    | (inr res, w') => (res, w')
    | (inl m, w') => (responder 500 (CuerpoFallo m), w')
    end.

End Anterior.

(** * Further notions *)

(** The datastore answers every query. *)
Definition fiable (E : Entorno) : Prop :=
  forall (c : Llamada) (n : nat), falla E c n = None.

(** The datastore accepts every insert into [sii_sync_log]. *)
Definition auditoria_fiable (E : Entorno) : Prop :=
  forall n : nat, falla E (LInsert "sii_sync_log") n = None.

(** A document whose [fechaEmision] is absent or a string. *)
Definition bien_formado (doc : Doc.t) : Prop :=
  match fecha_emision_de (Doc.fechaEmision doc) with
  | inr _ => True
  | inl _ => False
  end.

(** The folio has exactly one row with origen 'SimpleAPI'. *)
Definition presente (l : list Factura.t) (f : Z) : Prop :=
  length (ids (coincide f) l) = 1.

(** The character occurs in the string. *)
Fixpoint contiene (c : ascii) (s : string) : bool :=
  match s with
  | EmptyString => false
  | String c' s' => Ascii.eqb c' c || contiene c s'
  end.

(** The row that a branch of the handler logs, if it has documents. *)
Definition filas_sync (tipo periodo : string) (docs : list Doc.t) (r : Resumen.t)
    (userEmail : option string) : list SyncLog.t :=
  match docs with
  | [] => []
  | _ :: _ => [fila_sync tipo periodo r userEmail]
  end.

(** The shapes of the answers of the handler. *)
Definition forma_valida (res : Res.t) : Prop :=
  Res.headers res = cabeceras /\
  match Res.status res, Res.cuerpo res with
  | 200%Z, SinCuerpo => True
  | 200%Z, CuerpoExito _ => True
  | 400%Z, CuerpoError _ => True
  | 405%Z, CuerpoError _ => True
  | 500%Z, CuerpoFallo _ => True
  | _, _ => False
  end.

(** A row of another integration. *)
Definition fila_manual : Factura.t :=
  Factura.mk 100 None (VStr "Cliente antiguo") VNull (VStr "2025-11-03") 5000 0
             (VStr "Pagada") "Manual" VNull None "".

(** The remote service answers the sales and refuses the purchases: the
    call number 1 is the first query of a request. *)
Definition red_solo_ventas (ventas : list Doc.t) (n : nat) : Fetch :=
  if (n =? 1)%nat then
    FetchRespuesta (Response.mk 200 "" (inr (Rcv.mk_json (Some ventas) None)))
  else FetchRespuesta (Response.mk 503 "Service Unavailable" (inl "Unexpected token S in JSON")).

(** Every insert into [sii_sync_log] is refused. *)
Definition falla_auditoria (c : Llamada) (n : nat) : option string :=
  match c with
  | LInsert "sii_sync_log" => Some "relation does not exist"
  | _ => None
  end.

(** What a branch of the handler has done when it goes from [w] to [w']
    with the summary [r]: it reconciled the documents, the world then being
    [wb], and logged the summary if there were documents. *)
Definition rama_hecha (E : Entorno) (v : Variante) (tipo : string)
    (docs : list Doc.t) (uf : float) (p : string) (email : option string)
    (w : Mundo) (r : Resumen.t) (w' : Mundo) : Prop :=
  exists wb,
    procesarFacturas E v docs uf w = (inr r, wb) /\
    (forall t, filas t w' = filas t wb) /\
    Resumen.nuevos r + Resumen.actualizados r + length (Resumen.errores r)
      = length docs /\
    t_uf w' = t_uf w /\
    (exists l, llamadas w' = llamadas w ++ l) /\
    exists nuevas,
      t_sync_log w' = t_sync_log w ++ nuevas /\
      length nuevas <= 1 /\
      (auditoria_fiable E -> nuevas = filas_sync tipo p docs r email) /\
      ((forall n, falla E (LInsert "sii_sync_log") n <> None) -> nuevas = []).


(** The address that the older [consultarCompras] queries for a period. *)
Definition url_compras_de (periodo : string) : string :=
  "https://servicios.simpleapi.cl/api/RCV/compras/" +:+ substring 5 2 periodo
  +:+ "/" +:+ substring 0 4 periodo.


(** A row as a run at the rate [uf] over the documents [docs] writes it:
    origen 'SimpleAPI', and the folio and amounts of one of the documents. *)
Definition escrita (docs : list Doc.t) (uf : float) (row : Factura.t) : Prop :=
  Factura.origen row = "SimpleAPI" /\
  exists d,
    In d docs /\
    Factura.numero_folio row = Doc.folio d /\
    Factura.monto_clp row = Doc.montoTotal d /\
    Factura.monto_uf row = monto_en_uf (Doc.montoTotal d) uf.

(** A query of the datastore about the table of the given name. *)
Definition es_de_tabla (tabla : string) (c : Llamada) : bool :=
  match c with
  | LSelect t | LInsert t | LUpdate t _ => String.eqb t tabla
  | LFetch _ _ => false
  end.

(** The date part of a timestamp: what precedes its first 'T'. *)
Definition es_parte_fecha (d s : string) : Prop :=
  contiene "T" d = false /\
  exists resto, s = d +:+ resto /\ (resto = "" \/ exists r, resto = String "T" r).

(** * Elements that are not objects

    [detalleVentas] and [detalleCompras] are what [response.json()] gives,
    and an element of a JSON array can be [null].  Reading a property of
    [null] raises a [TypeError].  A reconciler reads [doc.folio] first in
    its [try] block, and reads it again in its [catch] block, where the
    template literal is evaluated before [errores.push] is called. *)

(** An element of the array: an object, or [null]. *)
Definition Elemento : Type := option Doc.t.

(** The message of the [TypeError] raised by [doc.folio] when [doc] is
    [null] (the wording is the engine's). *)
Definition folio_de_null : string :=
  "Cannot read properties of null (reading 'folio')".

(** Reading a property of the element. *)
Definition objeto (e : Elemento) : excepcion Doc.t :=
  match e with
  | Some doc => inr doc
  | None => inl folio_de_null
  end.

(** One turn of the loop for an element: the [try] block and its [catch],
    both of which read [doc.folio]. *)
Definition procesarElemento (E : Entorno) (v : Variante) (ufActual : float)
    (r : Resumen.t) (e : Elemento) : M Resumen.t :=
  try_catch (doc <- elevar (objeto e) ;; intentar E v ufActual r doc)
            (fun m => doc <- elevar (objeto e) ;;
                      ret (mas_error (mensaje_folio doc m) r)).

(** [for (const doc of documentos) { ... }], for an array of elements. *)
Fixpoint bucle_elementos (E : Entorno) (v : Variante) (ufActual : float)
    (documentos : list Elemento) (r : Resumen.t) : M Resumen.t :=
  match documentos with
  | [] => ret r
  | e :: resto =>
      r' <- procesarElemento E v ufActual r e ;;
      bucle_elementos E v ufActual resto r'
  end.

(** A reconciler called with an array of elements. *)
Definition procesarArreglo (E : Entorno) (v : Variante) (documentos : list Elemento)
    (ufActual : float) : M Resumen.t :=
  bucle_elementos E v ufActual documentos Resumen.cero.

(** * Properties *)

(** ** One turn of the loop *)

Lemma length_llamadas_anotar (c : Llamada) (w : Mundo) :
  length (llamadas (anotar c w)) = S (length (llamadas w)).
Proof. unfold anotar; simpl. rewrite length_app; simpl; lia. Qed.

Lemma filas_anotar (t : TablaFacturas) (c : Llamada) (w : Mundo) :
  filas t (anotar c w) = filas t w.
Proof. destruct t; reflexivity. Qed.

Lemma filas_con_filas (t : TablaFacturas) (l : list Factura.t) (w : Mundo) :
  filas t (con_filas t l w) = l.
Proof. destruct t; reflexivity. Qed.

Lemma select_id_eq (E : Entorno) (t : TablaFacturas) (f : Z) (w : Mundo) :
  select_id E t f w = (inr (buscar E t f w), anotar (LSelect (nombre t)) w).
Proof.
  unfold select_id, buscar, bind, llamar, leer, ret; simpl.
  rewrite filas_anotar. reflexivity.
Qed.

(** One turn, case by case. *)
Lemma procesarDocumento_eq (E : Entorno) (v : Variante) (uf : float)
    (r : Resumen.t) (doc : Doc.t) (w : Mundo) :
  procesarDocumento E v uf r doc w =
  match fecha_emision_de (Doc.fechaEmision doc) with
  | inl m => (inr (mas_error (mensaje_folio doc m) r), w)
  | inr fecha =>
      let t := tabla_de v in
      let n := length (llamadas w) in
      let f := factura v doc uf fecha (reloj E n) in
      match buscar E t (Doc.folio doc) w with
      | Some id =>
          (inr (mas_actualizado r),
           tras_escritura E t (LUpdate (nombre t) id)
             (alter (Factura.update (Factura.monto_clp f) (Factura.monto_uf f)
                       (Factura.actualizado_sii f)) id (filas t w)) w)
      | None =>
          (match falla E (LInsert (nombre t)) (S n) with
           | Some m => inr (mas_error (mensaje_folio doc m) r)
           | None => inr (mas_nuevo r)
           end,
           tras_escritura E t (LInsert (nombre t)) (filas t w ++ [f]) w)
      end
  end.
Proof.
  unfold procesarDocumento, try_catch, intentar, factura_de.
  unfold bind at 1. unfold bind at 1. unfold elevar at 1.
  destruct (fecha_emision_de (Doc.fechaEmision doc)) as [m | fecha]; [reflexivity |].
  unfold bind at 1. unfold ahora at 1. unfold ret at 1.
  unfold bind at 1. rewrite select_id_eq.
  unfold tras_escritura.
  destruct (buscar E (tabla_de v) (Doc.folio doc) w) as [id |].
  - unfold update_montos, bind, llamar, modificar, ret.
    rewrite length_llamadas_anotar.
    destruct (falla E (LUpdate (nombre (tabla_de v)) id) (S (length (llamadas w))));
      simpl; rewrite ?filas_anotar; reflexivity.
  - unfold insert_factura, bind, llamar, modificar, ret.
    rewrite length_llamadas_anotar.
    destruct (falla E (LInsert (nombre (tabla_de v))) (S (length (llamadas w))));
      simpl; rewrite ?filas_anotar; reflexivity.
Qed.

(** ** Summaries add up *)

Lemma sumar_cero_r (r : Resumen.t) : sumar r Resumen.cero = r.
Proof.
  destruct r as [n a e]; unfold sumar; simpl.
  rewrite !Nat.add_0_r, app_nil_r. reflexivity.
Qed.

Lemma sumar_cero_l (r : Resumen.t) : sumar Resumen.cero r = r.
Proof. destruct r; reflexivity. Qed.

Lemma sumar_assoc (a b c : Resumen.t) : sumar (sumar a b) c = sumar a (sumar b c).
Proof.
  unfold sumar; simpl. rewrite !Nat.add_assoc, app_assoc. reflexivity.
Qed.

Lemma sumar_mas_nuevo (r : Resumen.t) : sumar r (mas_nuevo Resumen.cero) = mas_nuevo r.
Proof.
  destruct r as [n a e]; unfold sumar, mas_nuevo; simpl.
  rewrite Nat.add_0_r, Nat.add_1_r, app_nil_r. reflexivity.
Qed.

Lemma sumar_mas_actualizado (r : Resumen.t) :
  sumar r (mas_actualizado Resumen.cero) = mas_actualizado r.
Proof.
  destruct r as [n a e]; unfold sumar, mas_actualizado; simpl.
  rewrite Nat.add_0_r, Nat.add_1_r, app_nil_r. reflexivity.
Qed.

Lemma sumar_mas_error (e : string) (r : Resumen.t) :
  sumar r (mas_error e Resumen.cero) = mas_error e r.
Proof.
  destruct r as [n a es]; unfold sumar, mas_error; simpl.
  rewrite !Nat.add_0_r. reflexivity.
Qed.

Lemma un_paso_cuenta (d : Resumen.t) :
  un_paso d ->
  Resumen.nuevos d + Resumen.actualizados d + length (Resumen.errores d) = 1.
Proof. destruct 1; reflexivity. Qed.

(** A turn never raises, and what it adds to the summary does not depend
    on the summary so far. *)
Lemma procesarDocumento_delta (E : Entorno) (v : Variante) (uf : float)
    (doc : Doc.t) (w : Mundo) :
  exists d w', un_paso d /\
    forall r, procesarDocumento E v uf r doc w = (inr (sumar r d), w').
Proof.
  pose proof (procesarDocumento_eq E v uf) as Heq.
  destruct (fecha_emision_de (Doc.fechaEmision doc)) as [m | fecha] eqn:Hf.
  - exists (mas_error (mensaje_folio doc m) Resumen.cero), w.
    split; [constructor |]. intros r. rewrite Heq, Hf, sumar_mas_error. reflexivity.
  - destruct (buscar E (tabla_de v) (Doc.folio doc) w) as [id |] eqn:Hb.
    + eexists (mas_actualizado Resumen.cero), _. split; [constructor |].
      intros r. rewrite Heq, Hf; simpl. rewrite Hb, sumar_mas_actualizado. reflexivity.
    + destruct (falla E (LInsert (nombre (tabla_de v))) (S (length (llamadas w))))
        as [m |] eqn:Hi.
      * eexists (mas_error (mensaje_folio doc m) Resumen.cero), _.
        split; [constructor |].
        intros r. rewrite Heq, Hf; simpl. rewrite Hb, Hi, sumar_mas_error. reflexivity.
      * eexists (mas_nuevo Resumen.cero), _. split; [constructor |].
        intros r. rewrite Heq, Hf; simpl. rewrite Hb, Hi, sumar_mas_nuevo. reflexivity.
Qed.

(** The loop never raises; it adds to the summary one outcome per
    document. *)
Lemma bucle_delta (E : Entorno) (v : Variante) (uf : float) (docs : list Doc.t) :
  forall w, exists d w',
    Resumen.nuevos d + Resumen.actualizados d + length (Resumen.errores d)
      = length docs /\
    forall r, bucle E v uf docs r w = (inr (sumar r d), w').
Proof.
  induction docs as [| doc docs IH]; intros w.
  - exists Resumen.cero, w. split; [reflexivity |].
    intros r. rewrite sumar_cero_r. reflexivity.
  - destruct (procesarDocumento_delta E v uf doc w) as (d1 & w1 & Hd1 & H1).
    destruct (IH w1) as (d2 & w2 & Hd2 & H2).
    exists (sumar d1 d2), w2. split.
    + apply un_paso_cuenta in Hd1. unfold sumar; simpl.
      rewrite length_app. lia.
    + intros r. simpl. unfold bind. rewrite H1, H2, sumar_assoc. reflexivity.
Qed.

Lemma bucle_app (E : Entorno) (v : Variante) (uf : float) (a b : list Doc.t) :
  forall r w,
    bucle E v uf (a ++ b) r w = (r' <- bucle E v uf a r ;; bucle E v uf b r') w.
Proof.
  induction a as [| doc a IH]; intros r w; simpl.
  - reflexivity.
  - unfold bind.
    destruct (procesarDocumento E v uf r doc w) as [[m | r1] w1]; [reflexivity |].
    rewrite IH. reflexivity.
Qed.

(** C9: the summary returned by a reconciler partitions its input: the
    run never raises, [nuevos + actualizados + errores.length] is the
    number of documents, and each turn of the loop adds exactly one of
    the three outcomes (one insert, one update or one error). *)
Theorem C9_resumen_particiona (E : Entorno) (v : Variante)
    (documentos : list Doc.t) (ufActual : float) (w : Mundo) :
  (exists r w',
     procesarFacturas E v documentos ufActual w = (inr r, w') /\
     Resumen.nuevos r + Resumen.actualizados r + length (Resumen.errores r)
       = length documentos) /\
  (forall doc w1, exists d w2,
     un_paso d /\
     forall r, procesarDocumento E v ufActual r doc w1 = (inr (sumar r d), w2)).
Proof.
  split.
  - destruct (bucle_delta E v ufActual documentos w) as (d & w' & Hd & H).
    exists d, w'. split; [| exact Hd].
    unfold procesarFacturas. rewrite H, sumar_cero_l. reflexivity.
  - intros doc w1. apply procesarDocumento_delta.
Qed.

(** ** The effect of a turn on the tables *)

Lemma filas_tras_escritura (E : Entorno) (t t' : TablaFacturas) (c : Llamada)
    (escrito : list Factura.t) (w : Mundo) :
  filas t' (tras_escritura E t c escrito w) = filas t' w \/
  (t' = t /\ falla E c (S (length (llamadas w))) = None /\
   filas t' (tras_escritura E t c escrito w) = escrito).
Proof.
  unfold tras_escritura.
  destruct (falla E c (S (length (llamadas w)))) as [m |].
  - left. rewrite !filas_anotar. reflexivity.
  - destruct t, t'; simpl; auto.
Qed.

Lemma otras_tablas_tras_escritura (E : Entorno) (t : TablaFacturas) (c : Llamada)
    (escrito : list Factura.t) (w : Mundo) :
  t_sync_log (tras_escritura E t c escrito w) = t_sync_log w /\
  t_uf (tras_escritura E t c escrito w) = t_uf w.
Proof.
  unfold tras_escritura.
  destruct (falla E c (S (length (llamadas w)))); destruct t; simpl; auto.
Qed.

(** C10: when the lookup of a document finds a row, [actualizados] is
    incremented whatever the datastore answers to the update: the summary
    gets no new error, and when the update is answered with an error the
    table is left as it was. *)
Theorem C10_update_sin_comprobar (E : Entorno) (v : Variante) (ufActual : float)
    (r : Resumen.t) (doc : Doc.t) (w : Mundo) (fecha : valor) (id : nat) :
  fecha_emision_de (Doc.fechaEmision doc) = inr fecha ->
  buscar E (tabla_de v) (Doc.folio doc) w = Some id ->
  exists r' w',
    procesarDocumento E v ufActual r doc w = (inr r', w') /\
    Resumen.actualizados r' = S (Resumen.actualizados r) /\
    Resumen.nuevos r' = Resumen.nuevos r /\
    Resumen.errores r' = Resumen.errores r /\
    (forall m,
       falla E (LUpdate (nombre (tabla_de v)) id) (S (length (llamadas w))) = Some m ->
       filas (tabla_de v) w' = filas (tabla_de v) w).
Proof.
  intros Hf Hb. rewrite procesarDocumento_eq, Hf; simpl. rewrite Hb.
  eexists _, _. split; [reflexivity |]. repeat split.
  intros m Hm. unfold tras_escritura. rewrite Hm, !filas_anotar. reflexivity.
Qed.

(** ** Rows selected by a filter *)

Lemma ids_desde_app (p : Factura.t -> bool) (a b : list Factura.t) :
  forall n, ids_desde p n (a ++ b) = ids_desde p n a ++ ids_desde p (n + length a) b.
Proof.
  induction a as [| x a IH]; intros n; simpl.
  - rewrite Nat.add_0_r. reflexivity.
  - rewrite IH, <- Nat.add_succ_comm. destruct (p x); reflexivity.
Qed.

Lemma ids_desde_alter (p : Factura.t -> bool) (g : Factura.t -> Factura.t)
    (Hg : forall x, p (g x) = p x) (l : list Factura.t) :
  forall i n, ids_desde p n (alter g i l) = ids_desde p n l.
Proof.
  induction l as [| x l IH]; intros [| i] n; try reflexivity.
  - change (alter g 0 (x :: l)) with (g x :: l). simpl. rewrite Hg. reflexivity.
  - change (alter g (S i) (x :: l)) with (x :: alter g i l). simpl.
    rewrite IH. reflexivity.
Qed.

Lemma ids_desde_lookup (p : Factura.t -> bool) (l : list Factura.t) :
  forall n i, In i (ids_desde p n l) ->
    n <= i /\ exists x, l !! (i - n) = Some x /\ p x = true.
Proof.
  induction l as [| x l IH]; intros n i Hin; simpl in Hin; [contradiction |].
  assert (Hrec : In i (ids_desde p (S n) l) ->
                 n <= i /\ exists y, (x :: l) !! (i - n) = Some y /\ p y = true).
  { intros H. destruct (IH _ _ H) as (Hle & y & Hy & Hp).
    split; [lia |]. exists y. split; [| exact Hp].
    replace (i - n) with (S (i - S n)) by lia. exact Hy. }
  destruct (p x) eqn:Hpx; [| auto].
  destruct Hin as [<- | Hin]; [| auto].
  split; [lia |]. exists x. rewrite Nat.sub_diag. auto.
Qed.

Lemma coincide_update (f : Z) (clp uf : float) (ts : string) (x : Factura.t) :
  coincide f (Factura.update clp uf ts x) = coincide f x.
Proof. reflexivity. Qed.

Lemma coincide_factura (f : Z) (v : Variante) (doc : Doc.t) (uf : float)
    (fecha : valor) (ts : string) :
  coincide f (factura v doc uf fecha ts) = (Doc.folio doc =? f)%Z.
Proof. destruct v; unfold coincide; simpl; apply andb_true_r. Qed.

Lemma una_por_folio_update (clp uf : float) (ts : string) (id : nat)
    (l : list Factura.t) :
  una_por_folio l -> una_por_folio (alter (Factura.update clp uf ts) id l).
Proof.
  intros H f. unfold ids. rewrite ids_desde_alter; [apply H |].
  intros x. apply coincide_update.
Qed.

Lemma una_por_folio_insert (v : Variante) (doc : Doc.t) (uf : float)
    (fecha : valor) (ts : string) (l : list Factura.t) :
  una_por_folio l ->
  single (ids (coincide (Doc.folio doc)) l) = None ->
  una_por_folio (l ++ [factura v doc uf fecha ts]).
Proof.
  intros H Hs f. unfold ids. rewrite ids_desde_app, length_app; simpl.
  rewrite coincide_factura.
  destruct (Z.eqb_spec (Doc.folio doc) f) as [<- | Hne]; simpl.
  - specialize (H (Doc.folio doc)). unfold ids in *.
    destruct (ids_desde (coincide (Doc.folio doc)) 0 l) as [| a [| b l']];
      simpl in *; [lia | discriminate | lia].
  - specialize (H f). unfold ids in H. lia.
Qed.

(** ** At most one row per folio *)

Lemma buscar_fiable (E : Entorno) (t : TablaFacturas) (f : Z) (w : Mundo) :
  select_fiable E -> buscar E t f w = single (ids (coincide f) (filas t w)).
Proof. intros H. unfold buscar. rewrite H. reflexivity. Qed.

Lemma paso_una_por_folio (E : Entorno) (v : Variante) (uf : float) (r : Resumen.t)
    (doc : Doc.t) (w : Mundo) (t : TablaFacturas) :
  select_fiable E ->
  una_por_folio (filas t w) ->
  una_por_folio (filas t (snd (procesarDocumento E v uf r doc w))).
Proof.
  intros HE Hinv. rewrite procesarDocumento_eq.
  destruct (fecha_emision_de (Doc.fechaEmision doc)) as [m | fecha]; [exact Hinv |].
  simpl. destruct (buscar E (tabla_de v) (Doc.folio doc) w) as [id |] eqn:Hb; simpl.
  - match goal with
    | |- context [tras_escritura E ?a ?c ?e w] =>
        destruct (filas_tras_escritura E a t c e w) as [-> | (-> & _ & ->)]
    end; [exact Hinv |].
    apply una_por_folio_update, Hinv.
  - match goal with
    | |- context [tras_escritura E ?a ?c ?e w] =>
        destruct (filas_tras_escritura E a t c e w) as [-> | (-> & _ & ->)]
    end; [exact Hinv |].
    apply una_por_folio_insert; [exact Hinv |].
    rewrite <- buscar_fiable with (E := E); assumption.
Qed.

Lemma bucle_una_por_folio (E : Entorno) (v : Variante) (uf : float)
    (t : TablaFacturas) (docs : list Doc.t) :
  select_fiable E ->
  forall r w,
    una_por_folio (filas t w) ->
    una_por_folio (filas t (snd (bucle E v uf docs r w))).
Proof.
  intros HE. induction docs as [| doc docs IH]; intros r w Hinv; [exact Hinv |].
  simpl. unfold bind.
  pose proof (paso_una_por_folio E v uf r doc w t HE Hinv) as Hpaso.
  destruct (procesarDocumento_delta E v uf doc w) as (d & w1 & _ & H1).
  rewrite H1 in *. simpl in Hpaso. apply IH, Hpaso.
Qed.

(** A turn whose lookup finds a row inserts nothing. *)
Lemma paso_sin_insert (E : Entorno) (v : Variante) (uf : float) (r : Resumen.t)
    (doc : Doc.t) (w : Mundo) (id : nat) :
  buscar E (tabla_de v) (Doc.folio doc) w = Some id ->
  length (filas (tabla_de v) (snd (procesarDocumento E v uf r doc w)))
    = length (filas (tabla_de v) w).
Proof.
  intros Hb. rewrite procesarDocumento_eq.
  destruct (fecha_emision_de (Doc.fechaEmision doc)) as [m | fecha]; [reflexivity |].
  simpl. rewrite Hb; simpl.
  match goal with
  | |- context [tras_escritura E ?a ?c ?e w] =>
      destruct (filas_tras_escritura E a (tabla_de v) c e w) as [-> | (_ & _ & ->)]
  end; [reflexivity |].
  apply length_alter.
Qed.

(** C1, as amended: when the datastore answers every lookup, a run of a
    reconciler over any sequence of documents keeps "at most one row per
    (numero_folio, origen = 'SimpleAPI')" in each invoice table; and a turn
    whose lookup finds a row leaves the number of rows as it was (a row is
    inserted only when the lookup finds none). *)
Theorem C1_una_fila_por_folio (E : Entorno) (v : Variante) (documentos : list Doc.t)
    (ufActual : float) (w : Mundo) (t : TablaFacturas) :
  select_fiable E ->
  una_por_folio (filas t w) ->
  una_por_folio (filas t (snd (procesarFacturas E v documentos ufActual w))) /\
  (forall r doc w1 id,
     buscar E (tabla_de v) (Doc.folio doc) w1 = Some id ->
     length (filas (tabla_de v) (snd (procesarDocumento E v ufActual r doc w1)))
       = length (filas (tabla_de v) w1)).
Proof.
  intros HE Hinv. split.
  - apply bucle_una_por_folio; assumption.
  - intros r doc w1 id. apply paso_sin_insert.
Qed.

Lemma C1_una_fila_por_folio_witness :
  una_por_folio
    (t_emitidas
       (snd (procesarFacturasEmitidas (entorno sin_fallas red_caida)
               [doc_de 100 3800000; doc_de 101 5000; doc_de 100 3800000] 38000
               (mundo_con [fila_previa] [])))).
Proof.
  apply (C1_una_fila_por_folio (entorno sin_fallas red_caida) Emitidas
           [doc_de 100 3800000; doc_de 101 5000; doc_de 100 3800000] 38000
           (mundo_con [fila_previa] []) facturas_emitidas).
  - intros t n. reflexivity.
  - intros f. unfold ids; simpl. destruct (coincide f fila_previa); simpl; lia.
Defined.

(** C1 as stated fails: the row of folio 100 exists, the lookup of the
    document times out, its answer is taken for "no row", and the insert
    gives the table a second row for (100, 'SimpleAPI'). *)
Lemma C1_contraejemplo :
  una_por_folio (t_emitidas (mundo_con [fila_previa] [])) /\
  ~ una_por_folio
      (t_emitidas
         (snd (procesarFacturasEmitidas (entorno falla_select red_caida)
                 [doc_de 100 3800000] 38000 (mundo_con [fila_previa] [])))).
Proof.
  split.
  - intros f. unfold ids; simpl. destruct (coincide f fila_previa); simpl; lia.
  - intros H. specialize (H 100%Z). vm_compute in H. lia.
Qed.

(** ** The update branch *)

Lemma mismas_columnas_update (clp uf : float) (ts : string) (x : Factura.t) :
  mismas_columnas_fijas x (Factura.update clp uf ts x).
Proof. unfold mismas_columnas_fijas; simpl; repeat split. Qed.

Lemma mismas_columnas_refl (x : Factura.t) : mismas_columnas_fijas x x.
Proof. unfold mismas_columnas_fijas; repeat split. Qed.

Lemma otras_filas_tras_escritura (E : Entorno) (t t' : TablaFacturas) (c : Llamada)
    (escrito : list Factura.t) (w : Mundo) :
  t' <> t -> filas t' (tras_escritura E t c escrito w) = filas t' w.
Proof.
  intros Hne. destruct (filas_tras_escritura E t t' c escrito w) as [H | (H & _)];
    [exact H | contradiction].
Qed.

(** C2, as amended: for a document whose [fechaEmision] is absent or a
    string, whose lookup is answered, and whose folio has exactly one row
    with origen 'SimpleAPI' in the target table, the turn counts the
    document in [actualizados] (not in [nuevos], and with no error), sets
    [monto_clp], [monto_uf] and [actualizado_sii] of that row when the
    datastore accepts the update (the row is unchanged otherwise), leaves
    every other column of the row as it was, and changes no other row and
    no other table. *)
Theorem C2_solo_montos (E : Entorno) (v : Variante) (ufActual : float)
    (r : Resumen.t) (doc : Doc.t) (w : Mundo) (fecha : valor) (id : nat) :
  fecha_emision_de (Doc.fechaEmision doc) = inr fecha ->
  falla E (LSelect (nombre (tabla_de v))) (length (llamadas w)) = None ->
  ids (coincide (Doc.folio doc)) (filas (tabla_de v) w) = [id] ->
  exists w' fila fila',
    procesarDocumento E v ufActual r doc w = (inr (mas_actualizado r), w') /\
    filas (tabla_de v) w !! id = Some fila /\
    coincide (Doc.folio doc) fila = true /\
    filas (tabla_de v) w' !! id = Some fila' /\
    mismas_columnas_fijas fila fila' /\
    match falla E (LUpdate (nombre (tabla_de v)) id) (S (length (llamadas w))) with
    | Some _ => fila' = fila
    | None =>
        Factura.monto_clp fila' = Doc.montoTotal doc /\
        Factura.monto_uf fila' = monto_en_uf (Doc.montoTotal doc) ufActual /\
        Factura.actualizado_sii fila' = reloj E (length (llamadas w))
    end /\
    (forall j, j <> id -> filas (tabla_de v) w' !! j = filas (tabla_de v) w !! j) /\
    length (filas (tabla_de v) w') = length (filas (tabla_de v) w) /\
    (forall t', t' <> tabla_de v -> filas t' w' = filas t' w) /\
    t_sync_log w' = t_sync_log w /\
    t_uf w' = t_uf w.
Proof.
  intros Hf Hsel Hids.
  assert (Hb : buscar E (tabla_de v) (Doc.folio doc) w = Some id).
  { unfold buscar. rewrite Hsel, Hids. reflexivity. }
  assert (Hin : In id (ids_desde (coincide (Doc.folio doc)) 0 (filas (tabla_de v) w))).
  { unfold ids in Hids. rewrite Hids. left. reflexivity. }
  apply ids_desde_lookup in Hin. destruct Hin as (_ & fila & Hfila & Hco).
  rewrite Nat.sub_0_r in Hfila.
  rewrite procesarDocumento_eq, Hf; simpl. rewrite Hb.
  set (f := factura v doc ufActual fecha (reloj E (length (llamadas w)))).
  set (g := Factura.update (Factura.monto_clp f) (Factura.monto_uf f)
              (Factura.actualizado_sii f)).
  set (w' := tras_escritura E (tabla_de v) (LUpdate (nombre (tabla_de v)) id)
               (alter g id (filas (tabla_de v) w)) w).
  destruct (otras_tablas_tras_escritura E (tabla_de v) (LUpdate (nombre (tabla_de v)) id)
              (alter g id (filas (tabla_de v) w)) w) as (Hlog & Huf).
  assert (Hotras : forall t', t' <> tabla_de v -> filas t' w' = filas t' w).
  { intros t' Hne. apply otras_filas_tras_escritura, Hne. }
  fold w' in Hlog, Huf.
  destruct (falla E (LUpdate (nombre (tabla_de v)) id) (S (length (llamadas w))))
    as [m |] eqn:Hu.
  - exists w', fila, fila.
    assert (Hw : filas (tabla_de v) w' = filas (tabla_de v) w).
    { subst w'. unfold tras_escritura. rewrite Hu, !filas_anotar. reflexivity. }
    rewrite Hw. repeat split; auto using mismas_columnas_refl.
  - exists w', fila, (g fila).
    assert (Hw : filas (tabla_de v) w' = alter g id (filas (tabla_de v) w)).
    { subst w'. unfold tras_escritura. rewrite Hu, filas_con_filas. reflexivity. }
    rewrite Hw. split; [reflexivity |]. split; [exact Hfila |]. split; [exact Hco |].
    split; [rewrite list_lookup_alter_eq, Hfila; reflexivity |].
    split; [apply mismas_columnas_update |].
    split; [subst g f; destruct v; simpl; auto |].
    split; [intros j Hj; apply list_lookup_alter_ne; congruence |].
    split; [apply length_alter |]. auto.
Qed.

Lemma C2_solo_montos_witness :
  exists w' fila',
    procesarDocumento (entorno sin_fallas red_caida) Emitidas 38000 Resumen.cero
      (doc_de 100 3800000) (mundo_con [fila_previa] [])
      = (inr (mas_actualizado Resumen.cero), w') /\
    t_emitidas w' !! 0 = Some fila' /\
    mismas_columnas_fijas fila_previa fila'.
Proof.
  destruct (C2_solo_montos (entorno sin_fallas red_caida) Emitidas 38000 Resumen.cero
              (doc_de 100 3800000) (mundo_con [fila_previa] [])
              (VStr "2026-01-15") 0 eq_refl eq_refl eq_refl)
    as (w' & fila & fila' & H1 & H2 & _ & H4 & H5 & _).
  exists w', fila'. split; [exact H1 |]. split; [exact H4 |].
  simpl in H2. injection H2 as <-. exact H5.
Defined.

(** C2 as stated fails: folio 100 has its row, but the lookup times out,
    so the document is inserted again and counted in [nuevos]. *)
Lemma C2_contraejemplo :
  t_emitidas (mundo_con [fila_previa] []) !! 0 = Some fila_previa /\
  coincide (Doc.folio (doc_de 100 3800000)) fila_previa = true /\
  fst (procesarFacturasEmitidas (entorno falla_select red_caida)
         [doc_de 100 3800000] 38000 (mundo_con [fila_previa] []))
    = inr (Resumen.mk 1 0 []).
Proof. repeat split. Qed.

Lemma C10_update_sin_comprobar_witness :
  exists r' w',
    procesarDocumento (entorno falla_update red_caida) Emitidas 38000 Resumen.cero
      (doc_de 100 3800000) (mundo_con [fila_previa] []) = (inr r', w') /\
    Resumen.actualizados r' = 1 /\
    Resumen.nuevos r' = 0 /\
    Resumen.errores r' = [] /\
    t_emitidas w' = [fila_previa].
Proof.
  destruct (C10_update_sin_comprobar (entorno falla_update red_caida) Emitidas 38000
              Resumen.cero (doc_de 100 3800000) (mundo_con [fila_previa] [])
              (VStr "2026-01-15") 0 eq_refl eq_refl)
    as (r' & w' & H1 & H2 & H3 & H4 & H5).
  exists r', w'. repeat split; try assumption.
  apply (H5 "permission denied"). reflexivity.
Defined.

(** ** Errors of single documents *)

Lemma bucle_desde_cero (E : Entorno) (v : Variante) (uf : float) (docs : list Doc.t)
    (w : Mundo) (d : Resumen.t) (w' : Mundo) :
  bucle E v uf docs Resumen.cero w = (inr d, w') ->
  Resumen.nuevos d + Resumen.actualizados d + length (Resumen.errores d) = length docs /\
  forall r, bucle E v uf docs r w = (inr (sumar r d), w').
Proof.
  intros H. destruct (bucle_delta E v uf docs w) as (d0 & w0 & Hd & H0).
  rewrite H0, sumar_cero_l in H. injection H as -> ->. auto.
Qed.

Lemma procesarDocumento_desde_cero (E : Entorno) (v : Variante) (uf : float)
    (doc : Doc.t) (w : Mundo) (d : Resumen.t) (w' : Mundo) :
  procesarDocumento E v uf Resumen.cero doc w = (inr d, w') ->
  forall r, procesarDocumento E v uf r doc w = (inr (sumar r d), w').
Proof.
  intros H. destruct (procesarDocumento_delta E v uf doc w) as (d0 & w0 & Hd & H0).
  rewrite H0, sumar_cero_l in H. injection H as -> ->. auto.
Qed.

(** For documents that are objects: an exception raised while a document
    is processed is caught in its turn of the loop and recorded as the one
    string [mensaje_folio doc m], and so is an insert that the datastore
    refuses; the run does not raise and goes on with the next document;
    and when one document fails among documents that do not, the summary
    holds exactly one error and counts every other document. *)
Lemma errores_por_documento (E : Entorno) (v : Variante) (ufActual : float) :
  (forall r doc w m w',
     intentar E v ufActual r doc w = (inl m, w') ->
     procesarDocumento E v ufActual r doc w
       = (inr (mas_error (mensaje_folio doc m) r), w')) /\
  (forall r doc w fecha m,
     fecha_emision_de (Doc.fechaEmision doc) = inr fecha ->
     buscar E (tabla_de v) (Doc.folio doc) w = None ->
     falla E (LInsert (nombre (tabla_de v))) (S (length (llamadas w))) = Some m ->
     exists w',
       procesarDocumento E v ufActual r doc w
         = (inr (mas_error (mensaje_folio doc m) r), w')) /\
  (forall antes doc despues w,
     exists r1 w1 r2 w2 r3 w3,
       bucle E v ufActual antes Resumen.cero w = (inr r1, w1) /\
       procesarDocumento E v ufActual r1 doc w1 = (inr r2, w2) /\
       bucle E v ufActual despues r2 w2 = (inr r3, w3) /\
       procesarFacturas E v (antes ++ doc :: despues) ufActual w = (inr r3, w3)) /\
  (forall antes doc despues w r1 w1 e w2 r3 w3,
     bucle E v ufActual antes Resumen.cero w = (inr r1, w1) ->
     Resumen.errores r1 = [] ->
     procesarDocumento E v ufActual Resumen.cero doc w1
       = (inr (mas_error e Resumen.cero), w2) ->
     bucle E v ufActual despues Resumen.cero w2 = (inr r3, w3) ->
     Resumen.errores r3 = [] ->
     exists r,
       procesarFacturas E v (antes ++ doc :: despues) ufActual w = (inr r, w3) /\
       Resumen.errores r = [e] /\
       Resumen.nuevos r + Resumen.actualizados r = length antes + length despues).
Proof.
  repeat split.
  - intros r doc w m w' H. unfold procesarDocumento, try_catch. rewrite H. reflexivity.
  - intros r doc w fecha m Hf Hb Hi. rewrite procesarDocumento_eq, Hf; simpl.
    rewrite Hb, Hi. eexists. reflexivity.
  - intros antes doc despues w.
    destruct (bucle_delta E v ufActual antes w) as (d1 & w1 & _ & H1).
    destruct (procesarDocumento_delta E v ufActual doc w1) as (d2 & w2 & _ & H2).
    destruct (bucle_delta E v ufActual despues w2) as (d3 & w3 & _ & H3).
    exists (sumar Resumen.cero d1), w1, (sumar (sumar Resumen.cero d1) d2), w2,
           (sumar (sumar (sumar Resumen.cero d1) d2) d3), w3.
    repeat split; auto.
    unfold procesarFacturas. rewrite bucle_app. unfold bind. rewrite H1. simpl.
    unfold bind. rewrite H2. apply H3.
  - intros antes doc despues w r1 w1 e w2 r3 w3 Ha Hea Hd Hb Heb.
    apply bucle_desde_cero in Ha. destruct Ha as (Hca & Ha).
    apply bucle_desde_cero in Hb. destruct Hb as (Hcb & Hb).
    pose proof (procesarDocumento_desde_cero E v ufActual doc w1 _ _ Hd) as Hd'.
    exists (sumar (sumar (sumar Resumen.cero r1) (mas_error e Resumen.cero)) r3).
    split; [| split].
    + unfold procesarFacturas. rewrite bucle_app. unfold bind. rewrite Ha. simpl.
      unfold bind. rewrite Hd'. apply Hb.
    + simpl. rewrite Hea, Heb. reflexivity.
    + simpl. rewrite Hea in Hca. rewrite Heb in Hcb. simpl in *. lia.
Qed.

Example errores_por_documento_ejemplo :
  exists r w',
    procesarFacturasEmitidas (entorno (falla_insert_en 3) red_caida)
      [doc_de 101 5000; doc_de 102 7000; doc_de 103 9000] 38000 (mundo_con [] [])
      = (inr r, w') /\
    Resumen.errores r = ["Folio 102: duplicate key value"] /\
    Resumen.nuevos r + Resumen.actualizados r = 2.
Proof.
  edestruct (proj2 (proj2 (proj2
               (errores_por_documento (entorno (falla_insert_en 3) red_caida)
                  Emitidas 38000)))
               [doc_de 101 5000] (doc_de 102 7000) [doc_de 103 9000] (mundo_con [] []))
    as (r & H1 & H2 & H3); [reflexivity .. |].
  exists r. eexists. split; [exact H1 |]. split; [exact H2 | exact H3].
Defined.

(** On an array of objects the loop over elements is the loop over
    documents. *)
Lemma procesarElemento_objeto (E : Entorno) (v : Variante) (uf : float)
    (r : Resumen.t) (doc : Doc.t) (w : Mundo) :
  procesarElemento E v uf r (Some doc) w = procesarDocumento E v uf r doc w.
Proof. reflexivity. Qed.

Lemma bucle_elementos_objetos (E : Entorno) (v : Variante) (uf : float)
    (docs : list Doc.t) :
  forall r w, bucle_elementos E v uf (map Some docs) r w = bucle E v uf docs r w.
Proof.
  induction docs as [| doc docs IH]; intros r w; [reflexivity |].
  cbn [map bucle_elementos bucle]. unfold bind.
  rewrite procesarElemento_objeto.
  destruct (procesarDocumento E v uf r doc w) as [[m | r1] w1]; [reflexivity |].
  apply IH.
Qed.

Lemma procesarArreglo_objetos (E : Entorno) (v : Variante) (docs : list Doc.t)
    (uf : float) (w : Mundo) :
  procesarArreglo E v (map Some docs) uf w = procesarFacturas E v docs uf w.
Proof. apply bucle_elementos_objetos. Qed.

Lemma bucle_elementos_app (E : Entorno) (v : Variante) (uf : float)
    (a b : list Elemento) :
  forall r w,
    bucle_elementos E v uf (a ++ b) r w
    = (r' <- bucle_elementos E v uf a r ;; bucle_elementos E v uf b r') w.
Proof.
  induction a as [| e a IH]; intros r w; [reflexivity |].
  cbn [app bucle_elementos]. unfold bind.
  destruct (procesarElemento E v uf r e w) as [[m | r1] w1]; [reflexivity |].
  rewrite IH. reflexivity.
Qed.

(** One turn of the loop on [null] raises, and leaves the world as it
    was: the [try] block raises before any call, and the [catch] block
    raises before [errores.push]. *)
Lemma procesarElemento_null (E : Entorno) (v : Variante) (uf : float)
    (r : Resumen.t) (w : Mundo) :
  procesarElemento E v uf r None w = (inl folio_de_null, w).
Proof. reflexivity. Qed.

(** C3 fails on an array that holds [null]: the exception raised while
    that element is processed is raised again by the [catch] block, which
    reads [doc.folio], and leaves the loop.  Whatever objects come before
    the [null] and whatever elements come after it, the reconciler
    processes the objects that come before, then raises the [TypeError]:
    it returns no summary, records no error string, and none of the
    elements that follow is processed. *)
Theorem C3_elemento_null_aborta (E : Entorno) (v : Variante) (ufActual : float)
    (antes : list Doc.t) (despues : list Elemento) (w : Mundo) :
  exists r1 w1,
    procesarFacturas E v antes ufActual w = (inr r1, w1) /\
    procesarArreglo E v (map Some antes ++ None :: despues) ufActual w
    = (inl folio_de_null, w1).
Proof.
  destruct (bucle_delta E v ufActual antes w) as (d1 & w1 & _ & H1).
  exists (sumar Resumen.cero d1), w1. split; [apply H1 |].
  unfold procesarArreglo. rewrite bucle_elementos_app. unfold bind at 1.
  rewrite bucle_elementos_objetos, H1.
  cbn [bucle_elementos]. unfold bind. rewrite procesarElemento_null. reflexivity.
Qed.

(** The run of [procesarFacturasEmitidas] over [[{folio: 101, ...}, null,
    {folio: 103, ...}]] on empty tables: the row of folio 101 is written,
    then the run raises; folio 103 gets no row. *)
Example elemento_null_ejemplo :
  let run := procesarArreglo (entorno sin_fallas red_caida) Emitidas
               [Some (doc_de 101 5000); None; Some (doc_de 103 9000)] 38000
               (mundo_con [] []) in
  fst run = inl folio_de_null /\
  map Factura.numero_folio (t_emitidas (snd run)) = [101%Z] /\
  llamadas (snd run) = [LSelect "facturas_emitidas"; LInsert "facturas_emitidas"].
Proof. repeat split. Qed.

(** ** The amount in UF *)

Lemma buscar_Some (E : Entorno) (t : TablaFacturas) (f : Z) (w : Mundo) (id : nat) :
  buscar E t f w = Some id ->
  exists fila, filas t w !! id = Some fila /\ coincide f fila = true.
Proof.
  unfold buscar, ids.
  destruct (falla E (LSelect (nombre t)) (length (llamadas w))); [discriminate |].
  intros Hs.
  assert (Hin : In id (ids_desde (coincide f) 0 (filas t w))).
  { destruct (ids_desde (coincide f) 0 (filas t w)) as [| a [| b l]];
      simpl in Hs; try discriminate. injection Hs as ->. left. reflexivity. }
  apply ids_desde_lookup in Hin. destruct Hin as (_ & fila & Hfila & Hco).
  rewrite Nat.sub_0_r in Hfila. eauto.
Qed.

Lemma monto_uf_factura (v : Variante) (doc : Doc.t) (uf : float) (fecha : valor)
    (ts : string) :
  Factura.monto_uf (factura v doc uf fecha ts)
    = (Math_round ((Doc.montoTotal doc / uf) * 100) / 100)%float.
Proof. destruct v; reflexivity. Qed.

(** C6, as amended: the [monto_uf] that a turn stores, in the row it
    updates or in the row it inserts, is the double
    [Math.round((T / R) * 100) / 100], where the division by [R], the
    product by 100 and the division by 100 are each rounded to double; for
    T = 3800000 and R = 38000 it is 100, which is T / R rounded to two
    decimal places. *)
Theorem C6_monto_uf (E : Entorno) (v : Variante) (ufActual : float) (r : Resumen.t)
    (doc : Doc.t) (w : Mundo) (fecha : valor) :
  fecha_emision_de (Doc.fechaEmision doc) = inr fecha ->
  match buscar E (tabla_de v) (Doc.folio doc) w with
  | Some id =>
      falla E (LUpdate (nombre (tabla_de v)) id) (S (length (llamadas w))) = None ->
      Factura.monto_uf <$>
        filas (tabla_de v) (snd (procesarDocumento E v ufActual r doc w)) !! id
      = Some (Math_round ((Doc.montoTotal doc / ufActual) * 100) / 100)%float
  | None =>
      falla E (LInsert (nombre (tabla_de v))) (S (length (llamadas w))) = None ->
      Factura.monto_uf <$>
        last (filas (tabla_de v) (snd (procesarDocumento E v ufActual r doc w)))
      = Some (Math_round ((Doc.montoTotal doc / ufActual) * 100) / 100)%float
  end /\
  (Math_round ((3800000 / 38000) * 100) / 100)%float = 100%float /\
  es_redondeo (Math_round ((3800000 / 38000) * 100) / 100)%float
              (redondeo_exacto 3800000 38000).
Proof.
  intros Hf. split; [| split; [reflexivity | vm_compute; reflexivity]].
  rewrite procesarDocumento_eq, Hf; simpl.
  destruct (buscar E (tabla_de v) (Doc.folio doc) w) as [id |] eqn:Hb; simpl.
  - intros Hu. unfold tras_escritura. rewrite Hu, filas_con_filas.
    destruct (buscar_Some _ _ _ _ _ Hb) as (fila & Hfila & _).
    rewrite list_lookup_alter_eq, Hfila; simpl. rewrite monto_uf_factura. reflexivity.
  - intros Hi. unfold tras_escritura. rewrite Hi, filas_con_filas.
    rewrite last_snoc; simpl. rewrite monto_uf_factura. reflexivity.
Qed.

Lemma C6_monto_uf_witness :
  Factura.monto_uf <$>
    last (t_emitidas
            (snd (procesarDocumento (entorno sin_fallas red_caida) Emitidas 38000
                    Resumen.cero (doc_de 100 3800000) (mundo_con [] []))))
  = Some 100%float.
Proof.
  exact (proj1 (C6_monto_uf (entorno sin_fallas red_caida) Emitidas 38000 Resumen.cero
                  (doc_de 100 3800000) (mundo_con [] []) (VStr "2026-01-15") eq_refl)
               eq_refl).
Defined.

(** C6 as stated fails: for T = 38570 and R = 38000 the quotient is 1.015
    and T / R rounded to two decimal places is 1.02, but the double nearest
    to 1.015 lies below it, its product by 100 is 101.49999999999999, and
    the row stores 1.01. *)
Lemma C6_contraejemplo :
  Factura.monto_uf <$>
    t_emitidas
      (snd (procesarFacturasEmitidas (entorno sin_fallas red_caida)
              [doc_de 7 38570] 38000 (mundo_con [] []))) !! 0
  = Some (101 / 100)%float /\
  (redondeo_exacto 38570 38000 == 102 # 100)%Q /\
  ~ es_redondeo (101 / 100)%float (redondeo_exacto 38570 38000).
Proof.
  split; [reflexivity |]. split; [reflexivity |].
  unfold es_redondeo. vm_compute. intros H. discriminate H.
Qed.

(** ** The reference rate *)

Lemma mas_reciente_spec (l : list UfValor.t) (d : UfValor.t) :
  mas_reciente l = Some d ->
  In d l /\ forall d', In d' l -> (UfValor.fecha d' <= UfValor.fecha d)%Z.
Proof.
  revert d. induction l as [| x l IH]; intros d H; simpl in H; [discriminate |].
  destruct (mas_reciente l) as [y |] eqn:Hy.
  - destruct (IH y eq_refl) as (Hin & Hmax).
    destruct (Z.leb_spec (UfValor.fecha y) (UfValor.fecha x)) as [Hle | Hlt];
      injection H as <-.
    + split; [left; reflexivity |].
      intros d' [<- | Hd']; [lia |]. specialize (Hmax d' Hd'). lia.
    + split; [right; exact Hin |].
      intros d' [<- | Hd']; [lia | auto].
  - injection H as <-. destruct l as [| z l]; [| simpl in Hy].
    + split; [left; reflexivity |]. intros d' [<- | []]. lia.
    + destruct (mas_reciente l) as [y |];
        [destruct (UfValor.fecha y <=? UfValor.fecha z)%Z |]; discriminate.
Qed.

Lemma mas_reciente_existe (l : list UfValor.t) :
  l <> [] -> exists d, mas_reciente l = Some d.
Proof.
  destruct l as [| x l]; [congruence |]. intros _. simpl.
  destruct (mas_reciente l) as [y |]; [| eauto].
  destruct (UfValor.fecha y <=? UfValor.fecha x)%Z; eauto.
Qed.

(** C8, as amended: [getUFActual] never raises; it issues one read and
    changes no table.  When the lookup is answered and the series is not
    empty, it returns the [valor] of a row of the greatest [fecha] if that
    [valor] is truthy (not 0 and not NaN), and 38000 otherwise; it returns
    38000 when the series is empty and when the lookup fails. *)
Theorem C8_getUFActual (E : Entorno) (w : Mundo) :
  exists uf,
    getUFActual E w = (inr uf, anotar (LSelect "uf_valores") w) /\
    (falla E (LSelect "uf_valores") (length (llamadas w)) = None ->
     t_uf w <> [] ->
     exists d,
       In d (t_uf w) /\
       (forall d', In d' (t_uf w) -> (UfValor.fecha d' <= UfValor.fecha d)%Z) /\
       uf = if truthy (VNum (UfValor.valor d)) then UfValor.valor d else 38000%float) /\
    (t_uf w = [] -> uf = 38000%float) /\
    (forall m, falla E (LSelect "uf_valores") (length (llamadas w)) = Some m ->
               uf = 38000%float).
Proof.
  unfold getUFActual, bind, llamar, leer, ret; simpl.
  eexists. split; [reflexivity |]. split; [| split].
  - intros Hs Hne. rewrite Hs.
    destruct (mas_reciente_existe _ Hne) as (d & Hd). rewrite Hd.
    destruct (mas_reciente_spec _ _ Hd) as (Hin & Hmax).
    exists d. auto.
  - intros Hnil. rewrite Hnil.
    destruct (falla E (LSelect "uf_valores") (length (llamadas w))); reflexivity.
  - intros m Hm. rewrite Hm. reflexivity.
Qed.

(** Three rows: the rate of the latest date is read. *)
Example getUFActual_ejemplo :
  fst (getUFActual (entorno sin_fallas red_caida)
         (mundo_con [] [UfValor.mk 20250101 37000; UfValor.mk 20260101 39500;
                        UfValor.mk 20251201 38900]))
  = inr 39500%float.
Proof. reflexivity. Qed.

(** C8 as stated fails: the series has a row, the lookup is answered, but
    the [valor] of the row is 0, which is falsy, and 38000 is returned
    instead of it. *)
Lemma C8_contraejemplo :
  mas_reciente (t_uf (mundo_con [] [UfValor.mk 20260101 0]))
    = Some (UfValor.mk 20260101 0) /\
  fst (getUFActual (entorno sin_fallas red_caida)
         (mundo_con [] [UfValor.mk 20260101 0])) = inr 38000%float /\
  (38000 =? UfValor.valor (UfValor.mk 20260101 0))%float = false.
Proof. repeat split. Qed.

(** ** The period *)

Lemma digito_no_guion (c : ascii) : es_digito c = true -> Ascii.eqb c "-" = false.
Proof.
  destruct c as [b0 b1 b2 b3 b4 b5 b6 b7].
  destruct b0, b1, b2, b3, b4, b5, b6, b7; vm_compute; congruence.
Qed.

Lemma test_periodo_forma (p : string) :
  test_periodo p = true ->
  exists a b c d e f,
    p = String a (String b (String c (String d (String "-" (String e (String f ""))))))
    /\ es_digito a = true /\ es_digito b = true /\ es_digito c = true
    /\ es_digito d = true /\ es_digito e = true /\ es_digito f = true.
Proof.
  unfold test_periodo.
  destruct p as [| a [| b [| c [| d [| g [| e [| f [| h p]]]]]]]]; simpl;
    try discriminate.
  intros H. repeat (apply andb_prop in H; destruct H as [H ?]).
  match goal with Hg : Ascii.eqb g "-" = true |- _ => apply Ascii.eqb_eq in Hg; subst g end.
  exists a, b, c, d, e, f. repeat split; try assumption.
  unfold es_digito; cbv zeta. apply andb_true_intro. split; assumption.
Qed.

Lemma split_periodo (p : string) :
  test_periodo p = true ->
  split "-" p = [substring 0 4 p; substring 5 2 p].
Proof.
  intros H. destruct (test_periodo_forma p H)
    as (a & b & c & d & e & f & -> & Ha & Hb & Hc & Hd & He & Hf).
  simpl. rewrite !digito_no_guion by assumption. reflexivity.
Qed.

Lemma periodo_truthy (p : string) : test_periodo p = true -> truthy (VStr p) = true.
Proof.
  intros H. destruct (test_periodo_forma p H) as (a & b & c & d & e & f & -> & _).
  reflexivity.
Qed.

(** ** The handler up to the remote query *)

Lemma getUFActual_eq (E : Entorno) (w : Mundo) :
  getUFActual E w = (inr (tasa E w), anotar (LSelect "uf_valores") w).
Proof. reflexivity. Qed.

(** What remains of the [try] block once the rate and the register have
    been obtained. *)
Lemma intentar_handler_valida (E : Entorno) (req : Request.t) (b : Request.json)
    (p : string) (w : Mundo) :
  valida req b p ->
  intentar_handler E req w =
  (rcv <- consultarRCV E (substring 5 2 p) (substring 0 4 p) (env E) ;;
   resultadoEmitidas <-
     rama E (procesarFacturasEmitidas E) "facturas_emitidas" (Rcv.ventas rcv)
          (tasa E w) p (Request.userEmail b) ;;
   resultadoRecibidas <-
     rama E (procesarFacturasRecibidas E) "facturas_recibidas" (Rcv.compras rcv)
          (tasa E w) p (Request.userEmail b) ;;
   ret (responder 200 (CuerpoExito
          {| Exito.periodo := p;
             Exito.uf_utilizada := tasa E w;
             Exito.emitidas := lado (length (Rcv.ventas rcv)) resultadoEmitidas;
             Exito.recibidas := lado (length (Rcv.compras rcv)) resultadoRecibidas;
             Exito.message := mensaje_final resultadoEmitidas resultadoRecibidas |})))
    (anotar (LSelect "uf_valores") w).
Proof.
  intros (Hm & Hb & Hp & Ht).
  unfold intentar_handler. rewrite Hm, Hb.
  change (negb ("POST" =? "POST")%string) with false. cbv iota.
  unfold bind at 1; unfold elevar at 1; cbv beta iota. rewrite Hp.
  rewrite (periodo_truthy p Ht), Ht. cbn [negb orb].
  rewrite (split_periodo p Ht). cbn [nth].
  unfold bind at 1. rewrite getUFActual_eq. reflexivity.
Qed.

Lemma consultarRCV_eq (E : Entorno) (mes año : string) (cred : Credenciales.t)
    (w : Mundo) :
  consultarRCV E mes año cred w =
  (match red E (length (llamadas w)) with
   | FetchRechazado m => inl m
   | FetchRespuesta resp =>
       if Response.ok resp then
         match Response.json resp with
         | inl m => inl m
         | inr data =>
             inr {| Rcv.ventas := default [] (Rcv.detalleVentas data);
                    Rcv.compras := default [] (Rcv.detalleCompras data) |}
         end
       else inl ("Error SimpleAPI: " +:+ decimal (Response.status resp)
                 +:+ " - " +:+ Response.text resp)
   end,
   anotar (LFetch ("https://servicios.simpleapi.cl/api/RCV/ventas/" +:+ mes
                   +:+ "/" +:+ año) cred) w).
Proof.
  unfold consultarRCV, bind, fetch, throw, elevar, ret.
  destruct (red E (length (llamadas w))) as [m | resp]; [reflexivity |].
  destruct (Response.ok resp); simpl; [| reflexivity].
  destruct (Response.json resp); reflexivity.
Qed.

Lemma handler_post (E : Entorno) (req : Request.t) (w : Mundo) :
  Request.method req = "POST" ->
  handler E req w =
  match intentar_handler E req w with
  | (inr res, w') => (res, w')
  | (inl m, w') => (responder 500 (CuerpoFallo m), w')
  end.
Proof. intros H. unfold handler. rewrite H. reflexivity. Qed.

(** C4: when the remote service answers with a status outside 200-299,
    [consultarRCV] raises 'Error SimpleAPI: {status} - {body text}', and
    the handler, for a request that passed validation, answers 500 with
    [{ success: false, error: message }]; no reconciliation takes place:
    the invoice tables and [sii_sync_log] are as before, and the only calls
    made are the read of the rate and the remote query. *)
Theorem C4_fallo_remoto (E : Entorno) (req : Request.t) (b : Request.json)
    (p : string) (w : Mundo) (resp : Response.t) :
  valida req b p ->
  red E (S (length (llamadas w))) = FetchRespuesta resp ->
  Response.ok resp = false ->
  let mensaje := "Error SimpleAPI: " +:+ decimal (Response.status resp)
                 +:+ " - " +:+ Response.text resp in
  fst (consultarRCV E (substring 5 2 p) (substring 0 4 p) (env E)
         (anotar (LSelect "uf_valores") w)) = inl mensaje /\
  exists w',
    handler E req w = (responder 500 (CuerpoFallo mensaje), w') /\
    t_emitidas w' = t_emitidas w /\
    t_recibidas w' = t_recibidas w /\
    t_sync_log w' = t_sync_log w /\
    t_uf w' = t_uf w /\
    llamadas w' = llamadas w ++ [LSelect "uf_valores"; LFetch (url_de p) (env E)].
Proof.
  intros Hv Hred Hok mensaje.
  assert (Hc : consultarRCV E (substring 5 2 p) (substring 0 4 p) (env E)
                 (anotar (LSelect "uf_valores") w)
               = (inl mensaje, tras_consulta E p w)).
  { rewrite consultarRCV_eq, length_llamadas_anotar, Hred, Hok. reflexivity. }
  split; [rewrite Hc; reflexivity |].
  exists (tras_consulta E p w). split.
  - rewrite handler_post by apply Hv.
    rewrite (intentar_handler_valida E req b p w Hv).
    unfold bind at 1. rewrite Hc. reflexivity.
  - unfold tras_consulta, anotar; simpl. rewrite <- app_assoc. auto.
Qed.

Lemma C4_fallo_remoto_witness :
  exists w',
    handler (entorno sin_fallas (red_estado 401 "Unauthorized")) (peticion "2026-01")
            (mundo_con [fila_previa] [UfValor.mk 20260101 39500])
    = (responder 500 (CuerpoFallo "Error SimpleAPI: 401 - Unauthorized"), w') /\
    t_emitidas w' = [fila_previa] /\
    t_recibidas w' = [] /\
    t_sync_log w' = [].
Proof.
  destruct (C4_fallo_remoto (entorno sin_fallas (red_estado 401 "Unauthorized"))
              (peticion "2026-01") (Request.mk_json (Some "2026-01") (Some "jere@tho.cl"))
              "2026-01" (mundo_con [fila_previa] [UfValor.mk 20260101 39500])
              (Response.mk 401 "Unauthorized" (inl "Unexpected token U in JSON")))
    as (_ & w' & H1 & H2 & H3 & H4 & _).
  - repeat split.
  - reflexivity.
  - reflexivity.
  - exists w'. auto.
Defined.

(** ** What a reconciliation leaves alone *)

Lemma marco_refl (t : TablaFacturas) (w : Mundo) : marco t w w.
Proof. repeat split; auto. exists []. rewrite app_nil_r. reflexivity. Qed.

Lemma marco_trans (t : TablaFacturas) (w1 w2 w3 : Mundo) :
  marco t w1 w2 -> marco t w2 w3 -> marco t w1 w3.
Proof.
  intros ((l1 & Hl1) & Hs1 & Hu1 & Hf1) ((l2 & Hl2) & Hs2 & Hu2 & Hf2).
  repeat split; try congruence.
  - exists (l1 ++ l2). rewrite Hl2, Hl1, app_assoc. reflexivity.
  - intros t' Hne. rewrite Hf2, Hf1 by assumption. reflexivity.
Qed.

Lemma marco_tras_escritura (E : Entorno) (t : TablaFacturas) (c : Llamada)
    (escrito : list Factura.t) (w : Mundo) :
  marco t w (tras_escritura E t c escrito w).
Proof.
  destruct (otras_tablas_tras_escritura E t c escrito w) as (Hs & Hu).
  repeat split; auto.
  - exists [LSelect (nombre t); c]. unfold tras_escritura.
    destruct (falla E c (S (length (llamadas w)))); destruct t; simpl;
      rewrite <- app_assoc; reflexivity.
  - intros t' Hne. apply otras_filas_tras_escritura, Hne.
Qed.

Lemma marco_procesarDocumento (E : Entorno) (v : Variante) (uf : float)
    (r : Resumen.t) (doc : Doc.t) (w : Mundo) :
  marco (tabla_de v) w (snd (procesarDocumento E v uf r doc w)).
Proof.
  rewrite procesarDocumento_eq.
  destruct (fecha_emision_de (Doc.fechaEmision doc)); [apply marco_refl |].
  simpl. destruct (buscar E (tabla_de v) (Doc.folio doc) w); simpl;
    apply marco_tras_escritura.
Qed.

Lemma marco_bucle (E : Entorno) (v : Variante) (uf : float) (docs : list Doc.t) :
  forall r w, marco (tabla_de v) w (snd (bucle E v uf docs r w)).
Proof.
  induction docs as [| doc docs IH]; intros r w; [apply marco_refl |].
  simpl. unfold bind.
  pose proof (marco_procesarDocumento E v uf r doc w) as Hpaso.
  destruct (procesarDocumento_delta E v uf doc w) as (d & w1 & _ & H1).
  rewrite H1 in *. simpl in Hpaso.
  eapply marco_trans; [exact Hpaso | apply IH].
Qed.

Lemma registrarSync_eq (E : Entorno) (tipo p : string) (r : Resumen.t)
    (email : option string) (w : Mundo) :
  registrarSync E tipo p r email w =
  (inr tt,
   match falla E (LInsert "sii_sync_log") (length (llamadas w)) with
   | Some _ => anotar (LInsert "sii_sync_log") w
   | None =>
       con_sync_log (t_sync_log w ++ [fila_sync tipo p r email])
                    (anotar (LInsert "sii_sync_log") w)
   end).
Proof.
  unfold registrarSync, bind, llamar, modificar, ret.
  destruct (falla E (LInsert "sii_sync_log") (length (llamadas w))); reflexivity.
Qed.

(** One branch of the handler: it never raises, changes only its own
    invoice table, and adds at most one row to [sii_sync_log], of its own
    type; with no documents it does nothing at all. *)
Lemma rama_spec (E : Entorno) (v : Variante) (tipo : string) (docs : list Doc.t)
    (uf : float) (p : string) (email : option string) (w : Mundo) :
  exists r w',
    rama E (procesarFacturas E v) tipo docs uf p email w = (inr r, w') /\
    (docs = [] -> r = Resumen.cero /\ w' = w) /\
    (exists l, llamadas w' = llamadas w ++ l) /\
    (forall t', t' <> tabla_de v -> filas t' w' = filas t' w) /\
    t_uf w' = t_uf w /\
    exists nuevas,
      t_sync_log w' = t_sync_log w ++ nuevas /\
      Forall (fun x => SyncLog.tipo_sync x = tipo) nuevas.
Proof.
  unfold rama. destruct docs as [| doc docs].
  - exists Resumen.cero, w. split; [reflexivity |]. split; [auto |].
    destruct (marco_refl (tabla_de v) w) as (Hl & _ & Hu & Hf).
    repeat split; auto. exists []. rewrite app_nil_r. auto.
  - change (0 <? length (doc :: docs))%nat with true. cbv iota.
    destruct (bucle_delta E v uf (doc :: docs) w) as (d & w1 & _ & H1).
    pose proof (marco_bucle E v uf (doc :: docs) Resumen.cero w) as Hm.
    unfold bind at 1. unfold procesarFacturas. rewrite H1 in *. simpl in Hm.
    destruct Hm as ((l & Hl) & Hs & Hu & Hf).
    unfold bind at 1. rewrite registrarSync_eq.
    destruct (falla E (LInsert "sii_sync_log") (length (llamadas w1))).
    + eexists _, _. split; [reflexivity |]. split; [discriminate |].
      split; [exists (l ++ [LInsert "sii_sync_log"]); simpl;
              rewrite Hl, app_assoc; reflexivity |].
      split; [intros t' Hne; rewrite filas_anotar; auto |].
      split; [exact Hu |].
      exists []. rewrite app_nil_r. simpl. auto.
    + eexists _, _. split; [reflexivity |]. split; [discriminate |].
      split; [exists (l ++ [LInsert "sii_sync_log"]); simpl;
              rewrite Hl, app_assoc; reflexivity |].
      split; [intros t' Hne; destruct t'; simpl; apply (Hf _ Hne) |].
      split; [exact Hu |].
      eexists [_]. simpl. rewrite Hs. split; [reflexivity |].
      constructor; [reflexivity | constructor].
Qed.

(** ** The handler after the remote query *)

(** A valid request whose remote query succeeds: the two branches run one
    after the other and the answer is 200. *)
Lemma handler_exito (E : Entorno) (req : Request.t) (b : Request.json) (p : string)
    (w : Mundo) (resp : Response.t) (datos : Rcv.json) :
  valida req b p ->
  red E (S (length (llamadas w))) = FetchRespuesta resp ->
  Response.ok resp = true ->
  Response.json resp = inr datos ->
  exists rE w3 rR w4,
    rama E (procesarFacturasEmitidas E) "facturas_emitidas"
         (default [] (Rcv.detalleVentas datos)) (tasa E w) p (Request.userEmail b)
         (tras_consulta E p w) = (inr rE, w3) /\
    rama E (procesarFacturasRecibidas E) "facturas_recibidas"
         (default [] (Rcv.detalleCompras datos)) (tasa E w) p (Request.userEmail b)
         w3 = (inr rR, w4) /\
    handler E req w =
    (responder 200 (CuerpoExito
       {| Exito.periodo := p;
          Exito.uf_utilizada := tasa E w;
          Exito.emitidas := lado (length (default [] (Rcv.detalleVentas datos))) rE;
          Exito.recibidas := lado (length (default [] (Rcv.detalleCompras datos))) rR;
          Exito.message := mensaje_final rE rR |}), w4) /\
    exists l, llamadas w4 = llamadas (tras_consulta E p w) ++ l.
Proof.
  intros Hv Hred Hok Hjson.
  destruct (rama_spec E Emitidas "facturas_emitidas"
              (default [] (Rcv.detalleVentas datos)) (tasa E w) p (Request.userEmail b)
              (tras_consulta E p w)) as (rE & w3 & HE & _ & (l1 & Hl1) & _).
  destruct (rama_spec E Recibidas "facturas_recibidas"
              (default [] (Rcv.detalleCompras datos)) (tasa E w) p (Request.userEmail b)
              w3) as (rR & w4 & HR & _ & (l2 & Hl2) & _).
  exists rE, w3, rR, w4. split; [exact HE |]. split; [exact HR |].
  split; [| exists (l1 ++ l2); rewrite Hl2, Hl1, app_assoc; reflexivity].
  rewrite handler_post by apply Hv.
  rewrite (intentar_handler_valida E req b p w Hv).
  unfold bind at 1. rewrite consultarRCV_eq, length_llamadas_anotar, Hred, Hok, Hjson.
  cbv beta iota. unfold bind at 1.
  unfold tras_consulta, url_de in HE. simpl Rcv.ventas. unfold procesarFacturasEmitidas.
  rewrite HE. unfold bind at 1. simpl Rcv.compras. unfold procesarFacturasRecibidas.
  rewrite HR. reflexivity.
Qed.



(** The calls of a valid request begin with the read of the rate and the
    query of the register of its period. *)
Lemma handler_valida_llamadas (E : Entorno) (req : Request.t) (b : Request.json)
    (p : string) (w : Mundo) :
  valida req b p ->
  exists resto,
    llamadas (snd (handler E req w))
    = llamadas w ++ [LSelect "uf_valores"; LFetch (url_de p) (env E)] ++ resto.
Proof.
  intros Hv.
  assert (Hbase : llamadas (tras_consulta E p w)
                  = llamadas w ++ [LSelect "uf_valores"; LFetch (url_de p) (env E)]).
  { unfold tras_consulta, anotar; simpl. rewrite <- app_assoc. reflexivity. }
  assert (Hfallo : forall m,
            fst (consultarRCV E (substring 5 2 p) (substring 0 4 p) (env E)
                   (anotar (LSelect "uf_valores") w)) = inl m ->
            snd (handler E req w) = tras_consulta E p w).
  { intros m Hm. rewrite handler_post by apply Hv.
    rewrite (intentar_handler_valida E req b p w Hv). unfold bind at 1.
    rewrite consultarRCV_eq in *. cbn [fst] in Hm. rewrite Hm. reflexivity. }
  destruct (red E (S (length (llamadas w)))) as [m | resp] eqn:Hred.
  - exists []. rewrite app_nil_r, <- Hbase. f_equal. apply (Hfallo m).
    rewrite consultarRCV_eq, length_llamadas_anotar, Hred. reflexivity.
  - destruct (Response.ok resp) eqn:Hok.
    + destruct (Response.json resp) as [m | datos] eqn:Hjson.
      * exists []. rewrite app_nil_r, <- Hbase. f_equal. apply (Hfallo m).
        rewrite consultarRCV_eq, length_llamadas_anotar, Hred, Hok, Hjson. reflexivity.
      * destruct (handler_exito E req b p w resp datos Hv Hred Hok Hjson)
          as (rE & w3 & rR & w4 & _ & _ & Hh & (l & Hl)).
        exists l. rewrite Hh; simpl. rewrite Hl, Hbase, <- app_assoc. reflexivity.
    + exists []. rewrite app_nil_r, <- Hbase. f_equal.
      apply (Hfallo ("Error SimpleAPI: " +:+ decimal (Response.status resp)
                     +:+ " - " +:+ Response.text resp)).
      rewrite consultarRCV_eq, length_llamadas_anotar, Hred, Hok. reflexivity.
Qed.

(** The validation of a request whose body, if it has one, holds a
    string or nothing in [periodo]: an OPTIONS request is answered 200
    with no body; any other method but POST is answered 405; a POST that
    carries a body whose [periodo] is absent, or does not match
    [^\d{4}-\d{2}$], is answered 400; in the three cases the world is left
    exactly as it was: no call has been made.  A [periodo] that matches
    splits on '-' into its first four characters (the year) and its last
    two (the month), and the register queried is the one of that month
    and year. *)
Lemma validacion_del_pedido (E : Entorno) (req : Request.t) (w : Mundo) :
  (Request.method req = "OPTIONS" ->
   handler E req w = (responder 200 SinCuerpo, w)) /\
  (Request.method req <> "OPTIONS" -> Request.method req <> "POST" ->
   handler E req w = (responder 405 (CuerpoError "Método no permitido"), w)) /\
  (forall b,
     Request.method req = "POST" ->
     Request.body req = Some b ->
     Request.periodo b = None \/
       (exists p, Request.periodo b = Some p /\ test_periodo p = false) ->
     handler E req w = (responder 400 (CuerpoError periodo_requerido), w)) /\
  (forall b p,
     valida req b p ->
     split "-" p = [substring 0 4 p; substring 5 2 p] /\
     exists resto,
       llamadas (snd (handler E req w))
       = llamadas w
         ++ [LSelect "uf_valores";
             LFetch ("https://servicios.simpleapi.cl/api/RCV/ventas/"
                     +:+ substring 5 2 p +:+ "/" +:+ substring 0 4 p) (env E)]
         ++ resto).
Proof.
  split; [| split; [| split]].
  - intros Hm. unfold handler. rewrite Hm. reflexivity.
  - intros Ho Hp. unfold handler, intentar_handler.
    destruct (String.eqb_spec (Request.method req) "OPTIONS"); [contradiction |].
    destruct (String.eqb_spec (Request.method req) "POST"); [contradiction |].
    reflexivity.
  - intros b Hm Hb Hper. rewrite handler_post by exact Hm.
    unfold intentar_handler. rewrite Hm, Hb.
    change (negb ("POST" =? "POST")%string) with false. cbv iota.
    unfold bind, elevar. destruct Hper as [-> | (p & -> & Ht)]; [reflexivity |].
    rewrite Ht, orb_true_r. reflexivity.
  - intros b p Hv. split; [apply split_periodo, Hv |].
    apply (handler_valida_llamadas E req b p w Hv).
Qed.

Example validacion_del_pedido_ejemplo :
  handler (entorno sin_fallas red_caida)
          (Request.mk "POST" (Some (Request.mk_json (Some "2026-1") None)))
          (mundo_con [fila_previa] [])
  = (responder 400 (CuerpoError periodo_requerido), mundo_con [fila_previa] []).
Proof.
  apply (proj1 (proj2 (proj2
           (validacion_del_pedido (entorno sin_fallas red_caida)
              (Request.mk "POST" (Some (Request.mk_json (Some "2026-1") None)))
              (mundo_con [fila_previa] []))))
           (Request.mk_json (Some "2026-1") None) eq_refl eq_refl).
  right. exists "2026-1". split; reflexivity.
Defined.

(** C5 fails on a POST that carries no body: it has no [periodo], yet it
    is not answered 400, for the destructuring of [req.body] raises inside
    the [try] block and the answer is 500 (no call has been made); a POST
    whose body is the empty object, which has no [periodo] either, is
    answered 400. *)
Theorem C5_post_sin_body (E : Entorno) (w : Mundo) :
  handler E (Request.mk "POST" None) w
  = (responder 500 (CuerpoFallo sin_body), w) /\
  handler E (Request.mk "POST" (Some (Request.mk_json None None))) w
  = (responder 400 (CuerpoError periodo_requerido), w).
Proof. split; reflexivity. Qed.

(** ** Checks of the model on concrete inputs *)

Example Math_round_ejemplos :
  Math_round 2.5 = 3%float /\ Math_round (-2.5) = (-2)%float /\
  Math_round 0.5 = 1%float /\ Math_round (-1.5) = (-1)%float /\
  Math_round 10000 = 10000%float /\ Math_round (1 / 4) = 0%float /\
  Math_round (4503599627370495.5) = 4503599627370496%float /\
  ((38570 / 38000) * 100 <? 101.5)%float = true.
Proof. repeat split. Qed.

Example split_ejemplos :
  split "-" "2026-01" = ["2026"; "01"] /\
  split "T" "2026-01-15T10:30:00" = ["2026-01-15"; "10:30:00"] /\
  split "T" "" = [""] /\
  test_periodo "2026-01" = true /\ test_periodo "2026-1" = false /\
  test_periodo "2026-01 " = false /\ test_periodo "" = false.
Proof. repeat split. Qed.

Example mensaje_folio_ejemplo :
  mensaje_folio (doc_de 100 3800000) "duplicate key value"
  = "Folio 100: duplicate key value".
Proof. reflexivity. Qed.

(** A document whose [fechaEmision] is a number: [split] raises, the
    exception is recorded, and nothing is asked of the datastore. *)
Example fecha_no_es_cadena :
  procesarFacturasEmitidas (entorno sin_fallas red_caida)
    [Doc.mk 9 VUndefined VUndefined VUndefined (VBool true) 1000 VUndefined VUndefined]
    38000 (mundo_con [] [])
  = (inr (Resumen.mk 0 0 ["Folio 9: doc.fechaEmision?.split is not a function"]),
     mundo_con [] []).
Proof. reflexivity. Qed.

(** The older [procesarFacturasEmitidas] also writes [numero_factura]. *)
Example anterior_numero_factura :
  Factura.numero_factura <$>
    t_emitidas (snd (procesarFacturasEmitidas_anterior (entorno sin_fallas red_caida)
                       [doc_de 100 3800000] 38000 (mundo_con [] [])))
  = [Some 100%Z].
Proof. reflexivity. Qed.

(** The scenario of the specification: one sales document (folio 100,
    3800000) and no purchases, at a rate of 38000. *)
Example escenario :
  exists w',
    handler (entorno sin_fallas (red_con (Some [doc_de 100 3800000]) None))
            (peticion "2026-01") (mundo_con [] [UfValor.mk 20260101 38000])
    = (responder 200 (CuerpoExito
         {| Exito.periodo := "2026-01";
            Exito.uf_utilizada := 38000;
            Exito.emitidas := Lado.mk 1 1 0 [];
            Exito.recibidas := Lado.mk 0 0 0 [];
            Exito.message := "Sincronización completada: 1 nuevas, 0 actualizadas" |}),
       w') /\
    t_sync_log w'
    = [SyncLog.mk "facturas_emitidas" "2026-01" 1 0 None "exitoso" (Some "jere@tho.cl")] /\
    Factura.monto_uf <$> t_emitidas w' = [100%float].
Proof. eexists. repeat split. Qed.

(** * Further properties of the reconcilers *)

(** ** Rows inserted and rows kept *)

Lemma paso_filas_nuevos (E : Entorno) (v : Variante) (uf : float) (r : Resumen.t)
    (doc : Doc.t) (w : Mundo) :
  exists r' w',
    procesarDocumento E v uf r doc w = (inr r', w') /\
    length (filas (tabla_de v) w') + Resumen.nuevos r
      = length (filas (tabla_de v) w) + Resumen.nuevos r'.
Proof.
  rewrite procesarDocumento_eq.
  destruct (fecha_emision_de (Doc.fechaEmision doc)) as [m | fecha].
  { eexists _, _. split; [reflexivity |]. reflexivity. }
  simpl. destruct (buscar E (tabla_de v) (Doc.folio doc) w) as [id |].
  - eexists _, _. split; [reflexivity |]. unfold tras_escritura.
    destruct (falla E (LUpdate (nombre (tabla_de v)) id) (S (length (llamadas w))));
      rewrite ?filas_con_filas, ?filas_anotar, ?length_alter; reflexivity.
  - unfold tras_escritura.
    destruct (falla E (LInsert (nombre (tabla_de v))) (S (length (llamadas w))));
      eexists _, _; (split; [reflexivity |]);
      rewrite ?filas_con_filas, ?filas_anotar, ?length_app; simpl; lia.
Qed.

Lemma bucle_filas_nuevos (E : Entorno) (v : Variante) (uf : float) (docs : list Doc.t) :
  forall r w, exists r' w',
    bucle E v uf docs r w = (inr r', w') /\
    length (filas (tabla_de v) w') + Resumen.nuevos r
      = length (filas (tabla_de v) w) + Resumen.nuevos r'.
Proof.
  induction docs as [| doc docs IH]; intros r w.
  - exists r, w. split; reflexivity.
  - destruct (paso_filas_nuevos E v uf r doc w) as (r1 & w1 & H1 & Hl1).
    destruct (IH r1 w1) as (r2 & w2 & H2 & Hl2).
    exists r2, w2. split; [| lia].
    simpl. unfold bind. rewrite H1. exact H2.
Qed.


Lemma mismas_columnas_trans (a b c : Factura.t) :
  mismas_columnas_fijas a b -> mismas_columnas_fijas b c -> mismas_columnas_fijas a c.
Proof.
  unfold mismas_columnas_fijas. intros H1 H2.
  destruct H1 as (?&?&?&?&?&?&?&?&?), H2 as (?&?&?&?&?&?&?&?&?).
  repeat split; congruence.
Qed.

(** A turn leaves every row where it is: untouched, or, when the row is
    the one of the folio of the document, with its amounts updated. *)
Lemma paso_fila_conservada (E : Entorno) (v : Variante) (uf : float) (r : Resumen.t)
    (doc : Doc.t) (w : Mundo) (t : TablaFacturas) (j : nat) (row : Factura.t) :
  filas t w !! j = Some row ->
  exists row',
    filas t (snd (procesarDocumento E v uf r doc w)) !! j = Some row' /\
    (row' = row \/
     (coincide (Doc.folio doc) row = true /\
      exists clp u ts, row' = Factura.update clp u ts row)).
Proof.
  intros Hrow. rewrite procesarDocumento_eq.
  destruct (fecha_emision_de (Doc.fechaEmision doc)) as [m | fecha]; [eauto |].
  simpl. destruct (buscar E (tabla_de v) (Doc.folio doc) w) as [id |] eqn:Hb; simpl.
  - match goal with
    | |- context [tras_escritura E ?a ?c ?e w] =>
        destruct (filas_tras_escritura E a t c e w) as [-> | (-> & _ & ->)]
    end; [eauto |].
    destruct (buscar_Some _ _ _ _ _ Hb) as (fila & Hfila & Hco).
    destruct (Nat.eq_dec id j) as [-> | Hne].
    + rewrite list_lookup_alter_eq, Hrow; simpl. rewrite Hrow in Hfila.
      injection Hfila as <-. eexists. split; [reflexivity |]. right. eauto.
    + rewrite list_lookup_alter_ne by exact Hne. eauto.
  - match goal with
    | |- context [tras_escritura E ?a ?c ?e w] =>
        destruct (filas_tras_escritura E a t c e w) as [-> | (-> & _ & ->)]
    end; [eauto |].
    rewrite lookup_app_l by (eapply lookup_lt_Some; exact Hrow). eauto.
Qed.

Lemma bucle_fila_conservada (E : Entorno) (v : Variante) (uf : float)
    (t : TablaFacturas) (j : nat) (docs : list Doc.t) :
  forall r w row,
    filas t w !! j = Some row ->
    exists row',
      filas t (snd (bucle E v uf docs r w)) !! j = Some row' /\
      mismas_columnas_fijas row row' /\
      ((forall d, In d docs -> coincide (Doc.folio d) row = false) -> row' = row).
Proof.
  induction docs as [| doc docs IH]; intros r w row Hrow.
  - exists row. simpl. auto using mismas_columnas_refl.
  - destruct (paso_fila_conservada E v uf r doc w t j row Hrow) as (row1 & H1 & Hcaso).
    destruct (procesarDocumento_delta E v uf doc w) as (d & w1 & _ & Hd).
    rewrite Hd in H1. simpl in H1.
    destruct (IH (sumar r d) w1 row1 H1) as (row2 & H2 & Hcol & Hsame).
    exists row2. simpl. unfold bind. rewrite Hd. split; [exact H2 |].
    destruct Hcaso as [-> | (Hco & clp & u & ts & ->)].
    + split; [exact Hcol |]. intros Hno. apply Hsame. intros d' Hd'. apply Hno. now right.
    + split.
      * eapply mismas_columnas_trans; [apply mismas_columnas_update | exact Hcol].
      * intros Hno. rewrite (Hno doc) in Hco by now left. discriminate.
Qed.

(** X2: whatever the datastore answers, a run never removes or moves a
    row: every row of an invoice table is still at its place afterwards,
    with the same folio, origen, counterparty, date, status and type; and
    it is the very same row when its origen is not 'SimpleAPI' or its
    folio is not the folio of any document of the run. *)
Theorem X2_filas_conservadas (E : Entorno) (v : Variante) (documentos : list Doc.t)
    (ufActual : float) (w : Mundo) (t : TablaFacturas) (j : nat) (row : Factura.t) :
  filas t w !! j = Some row ->
  exists row',
    filas t (snd (procesarFacturas E v documentos ufActual w)) !! j = Some row' /\
    mismas_columnas_fijas row row' /\
    (Factura.origen row <> "SimpleAPI" -> row' = row) /\
    ((forall d, In d documentos -> Doc.folio d <> Factura.numero_folio row) ->
     row' = row).
Proof.
  intros Hrow.
  destruct (bucle_fila_conservada E v ufActual t j documentos Resumen.cero w row Hrow)
    as (row' & H & Hcol & Hsame).
  exists row'. split; [exact H |]. split; [exact Hcol |]. split.
  - intros Ho. apply Hsame. intros d _. unfold coincide.
    destruct (String.eqb_spec (Factura.origen row) "SimpleAPI"); [contradiction |].
    apply andb_false_r.
  - intros Hf. apply Hsame. intros d Hd. unfold coincide.
    destruct (Z.eqb_spec (Factura.numero_folio row) (Doc.folio d)) as [Heq | _];
      [| reflexivity].
    exfalso. apply (Hf d Hd). congruence.
Qed.

Lemma X2_filas_conservadas_witness :
  t_emitidas
    (snd (procesarFacturasEmitidas (entorno sin_fallas red_caida)
            [doc_de 100 3800000; doc_de 101 5000] 38000
            (mundo_con [fila_manual; fila_previa] []))) !! 0
  = Some fila_manual.
Proof.
  destruct (X2_filas_conservadas (entorno sin_fallas red_caida) Emitidas
              [doc_de 100 3800000; doc_de 101 5000] 38000
              (mundo_con [fila_manual; fila_previa] []) facturas_emitidas 0
              fila_manual eq_refl) as (row' & H & _ & Ho & _).
  rewrite (Ho ltac:(discriminate)) in H. exact H.
Defined.

(** ** Synchronising again *)

Lemma buscar_presente (E : Entorno) (t : TablaFacturas) (f : Z) (w : Mundo) :
  fiable E -> presente (filas t w) f -> exists id, buscar E t f w = Some id.
Proof.
  intros HE Hp. unfold buscar. rewrite HE. unfold presente in Hp.
  destruct (ids (coincide f) (filas t w)) as [| id [| b l]]; simpl in Hp;
    try discriminate.
  exists id. reflexivity.
Qed.

Lemma ids_append (f : Z) (l : list Factura.t) (x : Factura.t) :
  ids (coincide f) (l ++ [x])
  = ids (coincide f) l ++ (if coincide f x then [length l] else []).
Proof.
  unfold ids. rewrite ids_desde_app. simpl. destruct (coincide f x); reflexivity.
Qed.

(** With a datastore that answers, a document whose folio has its row is
    updated, and the rows selected by any folio stay the same. *)
Lemma paso_presente (E : Entorno) (v : Variante) (uf : float) (r : Resumen.t)
    (doc : Doc.t) (w : Mundo) :
  fiable E -> bien_formado doc ->
  presente (filas (tabla_de v) w) (Doc.folio doc) ->
  exists w',
    procesarDocumento E v uf r doc w = (inr (mas_actualizado r), w') /\
    forall f, ids (coincide f) (filas (tabla_de v) w')
              = ids (coincide f) (filas (tabla_de v) w).
Proof.
  intros HE Hbf Hp. unfold bien_formado in Hbf.
  rewrite procesarDocumento_eq.
  destruct (fecha_emision_de (Doc.fechaEmision doc)) as [m | fecha]; [contradiction |].
  destruct (buscar_presente E _ _ _ HE Hp) as (id & Hb).
  simpl. rewrite Hb. eexists. split; [reflexivity |].
  intros f. unfold tras_escritura. rewrite HE, filas_con_filas.
  unfold ids. apply ids_desde_alter. intros x. apply coincide_update.
Qed.

(** With a datastore that answers, a well-formed document ends with
    exactly one row for its folio, and no error. *)
Lemma paso_deja_presente (E : Entorno) (v : Variante) (uf : float) (r : Resumen.t)
    (doc : Doc.t) (w : Mundo) :
  fiable E -> bien_formado doc ->
  una_por_folio (filas (tabla_de v) w) ->
  exists r' w',
    procesarDocumento E v uf r doc w = (inr r', w') /\
    Resumen.errores r' = Resumen.errores r /\
    una_por_folio (filas (tabla_de v) w') /\
    presente (filas (tabla_de v) w') (Doc.folio doc) /\
    forall f, presente (filas (tabla_de v) w) f -> presente (filas (tabla_de v) w') f.
Proof.
  intros HE Hbf Hinv.
  pose proof (paso_una_por_folio E v uf r doc w (tabla_de v)
                (fun t n => HE (LSelect t) n) Hinv) as Hinv'.
  pose proof (Hinv (Doc.folio doc)) as Hle.
  destruct (ids (coincide (Doc.folio doc)) (filas (tabla_de v) w)) as [| id l] eqn:Hids.
  - clear Hle. revert Hinv'. unfold bien_formado in Hbf.
    rewrite procesarDocumento_eq.
    destruct (fecha_emision_de (Doc.fechaEmision doc)) as [m | fecha]; [contradiction |].
    simpl. unfold buscar. rewrite HE, Hids. simpl. rewrite HE.
    unfold tras_escritura. rewrite HE.
    intros Hinv'. eexists _, _. split; [reflexivity |]. split; [reflexivity |].
    rewrite filas_con_filas in *.
    split; [exact Hinv' |]. split.
    + unfold presente. rewrite ids_append, Hids, coincide_factura, Z.eqb_refl.
      reflexivity.
    + intros f Hf. unfold presente in *. rewrite ids_append, coincide_factura.
      destruct (Z.eqb_spec (Doc.folio doc) f) as [<- | _].
      * rewrite Hids in Hf. discriminate.
      * rewrite app_nil_r. exact Hf.
  - assert (Hp : presente (filas (tabla_de v) w) (Doc.folio doc)).
    { unfold presente. rewrite Hids in *. simpl in *. destruct l; simpl in *; [reflexivity | lia]. }
    destruct (paso_presente E v uf r doc w HE Hbf Hp) as (w' & H & Hsame).
    rewrite H in Hinv'. simpl in Hinv'.
    exists (mas_actualizado r), w'. split; [exact H |]. split; [reflexivity |].
    split; [exact Hinv' |]. unfold presente. split.
    + rewrite Hsame. exact Hp.
    + intros f Hf. rewrite Hsame. exact Hf.
Qed.

Lemma bucle_deja_presentes (E : Entorno) (v : Variante) (uf : float)
    (docs : list Doc.t) :
  fiable E -> Forall bien_formado docs ->
  forall r w,
    una_por_folio (filas (tabla_de v) w) ->
    exists r' w',
      bucle E v uf docs r w = (inr r', w') /\
      Resumen.errores r' = Resumen.errores r /\
      una_por_folio (filas (tabla_de v) w') /\
      (forall d, In d docs -> presente (filas (tabla_de v) w') (Doc.folio d)) /\
      (forall f, presente (filas (tabla_de v) w) f -> presente (filas (tabla_de v) w') f).
Proof.
  intros HE Hbf. induction Hbf as [| doc docs Hdoc Hdocs IH]; intros r w Hinv.
  - exists r, w. repeat split; auto. intros d [].
  - destruct (paso_deja_presente E v uf r doc w HE Hdoc Hinv)
      as (r1 & w1 & H1 & He1 & Hinv1 & Hp1 & Hm1).
    destruct (IH r1 w1 Hinv1) as (r2 & w2 & H2 & He2 & Hinv2 & Hp2 & Hm2).
    exists r2, w2. split; [simpl; unfold bind; rewrite H1; exact H2 |].
    split; [congruence |]. split; [exact Hinv2 |]. split.
    + intros d [<- | Hd]; [apply Hm2, Hp1 | apply Hp2, Hd].
    + intros f Hf. apply Hm2, Hm1, Hf.
Qed.

Lemma bucle_presentes (E : Entorno) (v : Variante) (uf : float) (docs : list Doc.t) :
  fiable E -> Forall bien_formado docs ->
  forall r w,
    (forall d, In d docs -> presente (filas (tabla_de v) w) (Doc.folio d)) ->
    exists w',
      bucle E v uf docs r w
      = (inr (Resumen.mk (Resumen.nuevos r) (Resumen.actualizados r + length docs)
                         (Resumen.errores r)), w') /\
      forall f, ids (coincide f) (filas (tabla_de v) w')
                = ids (coincide f) (filas (tabla_de v) w).
Proof.
  intros HE Hbf. induction Hbf as [| doc docs Hdoc Hdocs IH]; intros r w Hp.
  - exists w. split; [| reflexivity]. simpl. unfold ret.
    rewrite Nat.add_0_r. destruct r; reflexivity.
  - destruct (paso_presente E v uf r doc w HE Hdoc (Hp doc (or_introl eq_refl)))
      as (w1 & H1 & Hs1).
    destruct (IH (mas_actualizado r) w1) as (w2 & H2 & Hs2).
    { intros d Hd. unfold presente. rewrite Hs1. apply Hp. now right. }
    exists w2. split.
    + simpl bucle. unfold bind. rewrite H1, H2. simpl.
      rewrite <- Nat.add_succ_comm. reflexivity.
    + intros f. rewrite Hs2. apply Hs1.
Qed.

(** X3: with a datastore that answers every query, a table with at most
    one row per folio and documents whose [fechaEmision] is absent or a
    string, a run reports no error and leaves exactly one row with origen
    'SimpleAPI' for the folio of every document (and for every folio that
    had one). *)
Theorem X3_cada_folio_su_fila (E : Entorno) (v : Variante) (documentos : list Doc.t)
    (ufActual : float) (w : Mundo) :
  fiable E ->
  Forall bien_formado documentos ->
  una_por_folio (filas (tabla_de v) w) ->
  exists r w',
    procesarFacturas E v documentos ufActual w = (inr r, w') /\
    Resumen.errores r = [] /\
    (forall d, In d documentos -> presente (filas (tabla_de v) w') (Doc.folio d)) /\
    (forall f, presente (filas (tabla_de v) w) f -> presente (filas (tabla_de v) w') f).
Proof.
  intros HE Hbf Hinv.
  destruct (bucle_deja_presentes E v ufActual documentos HE Hbf Resumen.cero w Hinv)
    as (r & w' & H & He & _ & Hp & Hm).
  exists r, w'. auto.
Qed.

(** X4: with a datastore that answers every query, documents whose
    [fechaEmision] is absent or a string and whose folios all have their
    row are all updates: [nuevos] is 0, [actualizados] is the number of
    documents, there is no error and no row is added.  So a second
    synchronisation of such documents inserts nothing. *)
Theorem X4_segunda_vez_actualiza (E : Entorno) (v : Variante) (documentos : list Doc.t)
    (ufActual : float) (w : Mundo) :
  fiable E ->
  Forall bien_formado documentos ->
  (forall d, In d documentos -> presente (filas (tabla_de v) w) (Doc.folio d)) ->
  exists w',
    procesarFacturas E v documentos ufActual w
    = (inr (Resumen.mk 0 (length documentos) []), w') /\
    length (filas (tabla_de v) w') = length (filas (tabla_de v) w).
Proof.
  intros HE Hbf Hp.
  destruct (bucle_presentes E v ufActual documentos HE Hbf Resumen.cero w Hp)
    as (w' & H & _).
  exists w'. split; [exact H |].
  destruct (bucle_filas_nuevos E v ufActual documentos Resumen.cero w)
    as (r & w2 & H2 & Hl).
  unfold procesarFacturas in H. rewrite H in H2. injection H2 as <- <-.
  simpl in Hl. lia.
Qed.

Lemma X3_cada_folio_su_fila_witness :
  exists r w',
    procesarFacturasEmitidas (entorno sin_fallas red_caida)
      [doc_de 100 3800000; doc_de 101 5000; doc_de 100 4000000] 38000
      (mundo_con [fila_previa] []) = (inr r, w') /\
    Resumen.errores r = [] /\
    presente (t_emitidas w') 101 /\
    presente (t_emitidas w') 100.
Proof.
  destruct (X3_cada_folio_su_fila (entorno sin_fallas red_caida) Emitidas
              [doc_de 100 3800000; doc_de 101 5000; doc_de 100 4000000] 38000
              (mundo_con [fila_previa] []))
    as (r & w' & H & He & Hp & _).
  - intros c n. reflexivity.
  - repeat constructor.
  - intros f. unfold ids; simpl. destruct (coincide f fila_previa); simpl; lia.
  - exists r, w'. split; [exact H |]. split; [exact He |]. split.
    + apply (Hp (doc_de 101 5000)). right. left. reflexivity.
    + apply (Hp (doc_de 100 3800000)). left. reflexivity.
Defined.

Lemma X4_segunda_vez_actualiza_witness :
  exists w',
    procesarFacturasEmitidas (entorno sin_fallas red_caida)
      [doc_de 100 3800000; doc_de 100 4000000] 38000
      (mundo_con [fila_manual; fila_previa] [])
    = (inr (Resumen.mk 0 2 []), w') /\
    length (t_emitidas w') = 2.
Proof.
  apply (X4_segunda_vez_actualiza (entorno sin_fallas red_caida) Emitidas
           [doc_de 100 3800000; doc_de 100 4000000] 38000
           (mundo_con [fila_manual; fila_previa] [])).
  - intros c n. reflexivity.
  - repeat constructor.
  - intros d [<- | [<- | []]]; reflexivity.
Defined.

(** * Further properties of the handler *)

(** ** What a branch does *)

Lemma rama_detalle (E : Entorno) (v : Variante) (tipo : string) (docs : list Doc.t)
    (uf : float) (p : string) (email : option string) (w : Mundo) :
  exists r w',
    rama E (procesarFacturas E v) tipo docs uf p email w = (inr r, w') /\
    rama_hecha E v tipo docs uf p email w r w'.
Proof.
  unfold rama, rama_hecha. destruct docs as [| doc docs].
  - exists Resumen.cero, w. split; [reflexivity |]. exists w.
    split; [reflexivity |]. split; [reflexivity |]. split; [reflexivity |].
    split; [reflexivity |]. split; [exists []; rewrite app_nil_r; reflexivity |].
    exists []. rewrite app_nil_r. repeat split; auto.
  - change (0 <? length (doc :: docs))%nat with true. cbv iota.
    destruct (bucle_delta E v uf (doc :: docs) w) as (d & w1 & Hd & H1).
    pose proof (marco_bucle E v uf (doc :: docs) Resumen.cero w) as Hm.
    unfold bind at 1. unfold procesarFacturas. rewrite H1 in *. simpl in Hm.
    destruct Hm as ((l & Hl) & Hs & Hu & Hf).
    unfold bind at 1. rewrite registrarSync_eq. rewrite sumar_cero_l.
    eexists _, _. split; [reflexivity |]. exists w1. split; [reflexivity |].
    destruct (falla E (LInsert "sii_sync_log") (length (llamadas w1))) as [m |] eqn:Hfa.
    + split; [intros t; apply filas_anotar |]. split; [exact Hd |].
      split; [exact Hu |].
      split; [exists (l ++ [LInsert "sii_sync_log"]); simpl;
              rewrite Hl, app_assoc; reflexivity |].
      exists []. rewrite app_nil_r. split; [exact Hs |]. split; [simpl; lia |].
      split; [| reflexivity].
      intros Ha. rewrite Ha in Hfa. discriminate.
    + split; [intros t; destruct t; reflexivity |]. split; [exact Hd |].
      split; [exact Hu |].
      split; [exists (l ++ [LInsert "sii_sync_log"]); simpl;
              rewrite Hl, app_assoc; reflexivity |].
      eexists [_]. simpl. rewrite Hs. split; [reflexivity |]. split; [lia |].
      split; [reflexivity |].
      intros Hno. exfalso. apply (Hno _ Hfa).
Qed.

(** A valid request whose remote query succeeded, in detail. *)
Lemma handler_exito_detalle (E : Entorno) (req : Request.t) (b : Request.json)
    (p : string) (w : Mundo) (resp : Response.t) (datos : Rcv.json) :
  valida req b p ->
  red E (S (length (llamadas w))) = FetchRespuesta resp ->
  Response.ok resp = true ->
  Response.json resp = inr datos ->
  exists rE w3 rR w4,
    rama_hecha E Emitidas "facturas_emitidas" (default [] (Rcv.detalleVentas datos))
      (tasa E w) p (Request.userEmail b) (tras_consulta E p w) rE w3 /\
    rama_hecha E Recibidas "facturas_recibidas" (default [] (Rcv.detalleCompras datos))
      (tasa E w) p (Request.userEmail b) w3 rR w4 /\
    handler E req w =
    (responder 200 (CuerpoExito
       {| Exito.periodo := p;
          Exito.uf_utilizada := tasa E w;
          Exito.emitidas := lado (length (default [] (Rcv.detalleVentas datos))) rE;
          Exito.recibidas := lado (length (default [] (Rcv.detalleCompras datos))) rR;
          Exito.message := mensaje_final rE rR |}), w4).
Proof.
  intros Hv Hred Hok Hjson.
  destruct (rama_detalle E Emitidas "facturas_emitidas"
              (default [] (Rcv.detalleVentas datos)) (tasa E w) p (Request.userEmail b)
              (tras_consulta E p w)) as (rE & w3 & HE & HdE).
  destruct (rama_detalle E Recibidas "facturas_recibidas"
              (default [] (Rcv.detalleCompras datos)) (tasa E w) p (Request.userEmail b)
              w3) as (rR & w4 & HR & HdR).
  exists rE, w3, rR, w4. split; [exact HdE |]. split; [exact HdR |].
  rewrite handler_post by apply Hv.
  rewrite (intentar_handler_valida E req b p w Hv).
  unfold bind at 1. rewrite consultarRCV_eq, length_llamadas_anotar, Hred, Hok, Hjson.
  cbv beta iota. unfold bind at 1.
  unfold tras_consulta, url_de in HE. simpl Rcv.ventas. unfold procesarFacturasEmitidas.
  rewrite HE. unfold bind at 1. simpl Rcv.compras. unfold procesarFacturasRecibidas.
  rewrite HR. reflexivity.
Qed.


(** ** Answers of a valid request *)





(** ** Every request *)

Lemma handler_consulta_fallida (E : Entorno) (req : Request.t) (b : Request.json)
    (p : string) (w : Mundo) (m : string) :
  valida req b p ->
  fst (consultarRCV E (substring 5 2 p) (substring 0 4 p) (env E)
         (anotar (LSelect "uf_valores") w)) = inl m ->
  handler E req w = (responder 500 (CuerpoFallo m), tras_consulta E p w).
Proof.
  intros Hv Hm. rewrite handler_post by apply Hv.
  rewrite (intentar_handler_valida E req b p w Hv). unfold bind at 1.
  rewrite consultarRCV_eq in *. cbn [fst] in Hm. rewrite Hm. reflexivity.
Qed.

(** X7: when [fetch] rejects, or when the body of a successful answer is
    not JSON, the handler answers a valid request with 500 and the message
    of the exception; the rate has been read and the query made, but no
    table is changed and nothing is logged. *)
Theorem X7_consulta_sin_datos (E : Entorno) (req : Request.t) (b : Request.json)
    (p : string) (w : Mundo) (m : string) :
  valida req b p ->
  red E (S (length (llamadas w))) = FetchRechazado m \/
    (exists resp, red E (S (length (llamadas w))) = FetchRespuesta resp /\
                  Response.ok resp = true /\ Response.json resp = inl m) ->
  exists w',
    handler E req w = (responder 500 (CuerpoFallo m), w') /\
    t_emitidas w' = t_emitidas w /\
    t_recibidas w' = t_recibidas w /\
    t_sync_log w' = t_sync_log w /\
    t_uf w' = t_uf w /\
    llamadas w' = llamadas w ++ [LSelect "uf_valores"; LFetch (url_de p) (env E)].
Proof.
  intros Hv Hred. exists (tras_consulta E p w). split.
  - apply (handler_consulta_fallida E req b p w m Hv).
    rewrite consultarRCV_eq, length_llamadas_anotar. cbn [fst].
    destruct Hred as [-> | (resp & -> & -> & ->)]; reflexivity.
  - unfold tras_consulta, anotar; simpl. rewrite <- app_assoc. auto.
Qed.

Lemma X7_consulta_sin_datos_witness :
  exists w',
    handler (entorno sin_fallas red_caida) (peticion "2026-01")
            (mundo_con [fila_previa] [])
    = (responder 500 (CuerpoFallo "fetch failed"), w') /\
    t_emitidas w' = [fila_previa] /\
    t_sync_log w' = [].
Proof.
  destruct (X7_consulta_sin_datos (entorno sin_fallas red_caida) (peticion "2026-01")
              (Request.mk_json (Some "2026-01") (Some "jere@tho.cl")) "2026-01"
              (mundo_con [fila_previa] []) "fetch failed"
              (conj eq_refl (conj eq_refl (conj eq_refl eq_refl)))
              (or_introl eq_refl))
    as (w' & H & He & _ & Hs & _).
  exists w'. auto.
Defined.

Lemma handler_casos (E : Entorno) (req : Request.t) (w : Mundo) :
  handler E req w = (responder 200 SinCuerpo, w) \/
  handler E req w = (responder 405 (CuerpoError "Método no permitido"), w) \/
  handler E req w = (responder 400 (CuerpoError periodo_requerido), w) \/
  handler E req w = (responder 500 (CuerpoFallo sin_body), w) \/
  exists b p, valida req b p.
Proof.
  remember (handler E req w) as h eqn:Hh.
  unfold handler, intentar_handler in Hh.
  destruct (String.eqb_spec (Request.method req) "OPTIONS") as [Ho | Ho]; [auto |].
  destruct (String.eqb_spec (Request.method req) "POST") as [Hp | Hp];
    [| right; left; exact Hh].
  cbn [negb] in Hh. cbv iota in Hh.
  destruct (Request.body req) as [b |] eqn:Hb;
    [| right; right; right; left; exact Hh].
  unfold bind at 1, elevar at 1 in Hh. cbv beta iota in Hh.
  destruct (Request.periodo b) as [p |] eqn:Hper;
    [| right; right; left; exact Hh].
  destruct (test_periodo p) eqn:Ht.
  - right; right; right; right. exists b, p. repeat split; assumption.
  - right; right; left. rewrite orb_true_r in Hh. exact Hh.
Qed.

Lemma handler_valida_casos (E : Entorno) (req : Request.t) (b : Request.json)
    (p : string) (w : Mundo) :
  valida req b p ->
  (exists m, handler E req w = (responder 500 (CuerpoFallo m), tras_consulta E p w)) \/
  (exists resp datos,
     red E (S (length (llamadas w))) = FetchRespuesta resp /\
     Response.ok resp = true /\ Response.json resp = inr datos).
Proof.
  intros Hv.
  destruct (red E (S (length (llamadas w)))) as [m | resp] eqn:Hred.
  - left. exists m. apply (handler_consulta_fallida E req b p w m Hv).
    rewrite consultarRCV_eq, length_llamadas_anotar, Hred. reflexivity.
  - destruct (Response.ok resp) eqn:Hok.
    + destruct (Response.json resp) as [m | datos] eqn:Hjson.
      * left. exists m. apply (handler_consulta_fallida E req b p w m Hv).
        rewrite consultarRCV_eq, length_llamadas_anotar, Hred, Hok, Hjson. reflexivity.
      * right. eauto.
    + left. eexists. apply (handler_consulta_fallida E req b p w _ Hv).
      rewrite consultarRCV_eq, length_llamadas_anotar, Hred, Hok. reflexivity.
Qed.

(** X8: every request is answered, with the three CORS headers and one of
    five shapes: 200 with no body, 200 with the summary, 400 or 405 with
    [{ error }], 500 with [{ success: false, error }]. *)
Theorem X8_forma_de_la_respuesta (E : Entorno) (req : Request.t) (w : Mundo) :
  forma_valida (fst (handler E req w)).
Proof.
  destruct (handler_casos E req w) as [H | [H | [H | [H | (b & p & Hv)]]]];
    try (rewrite H; split; reflexivity).
  destruct (handler_valida_casos E req b p w Hv)
    as [(m & H) | (resp & datos & Hred & Hok & Hjson)].
  - rewrite H. split; reflexivity.
  - destruct (handler_exito_detalle E req b p w resp datos Hv Hred Hok Hjson)
      as (rE & w3 & rR & w4 & _ & _ & H).
    rewrite H. split; reflexivity.
Qed.

Lemma rama_hecha_fila (E : Entorno) (v : Variante) (tipo : string) (docs : list Doc.t)
    (uf : float) (p : string) (email : option string) (w : Mundo) (r : Resumen.t)
    (w' : Mundo) (t : TablaFacturas) (j : nat) (row : Factura.t) :
  rama_hecha E v tipo docs uf p email w r w' ->
  filas t w !! j = Some row ->
  exists row',
    filas t w' !! j = Some row' /\
    mismas_columnas_fijas row row' /\
    (Factura.origen row <> "SimpleAPI" -> row' = row).
Proof.
  intros (wb & Hp & Hf & _) Hrow.
  destruct (bucle_fila_conservada E v uf t j docs Resumen.cero w row Hrow)
    as (row' & H & Hcol & Hsame).
  unfold procesarFacturas in Hp. rewrite Hp in H. simpl in H.
  exists row'. rewrite Hf. split; [exact H |]. split; [exact Hcol |].
  intros Ho. apply Hsame. intros d _. unfold coincide.
  destruct (String.eqb_spec (Factura.origen row) "SimpleAPI"); [contradiction |].
  apply andb_false_r.
Qed.

(** X9: the endpoint only adds.  Whatever the request, the remote service
    and the datastore do, one run of the handler leaves [uf_valores] as it
    was, keeps the rows of [sii_sync_log] and adds at most two after them,
    and keeps every invoice row at its place with the same folio, origen,
    counterparty, date, status and type; a row whose origen is not
    'SimpleAPI' is not changed at all. *)
Theorem X9_solo_agrega (E : Entorno) (req : Request.t) (w : Mundo) :
  t_uf (snd (handler E req w)) = t_uf w /\
  (exists nuevas,
     t_sync_log (snd (handler E req w)) = t_sync_log w ++ nuevas /\
     length nuevas <= 2) /\
  (forall t j row,
     filas t w !! j = Some row ->
     exists row',
       filas t (snd (handler E req w)) !! j = Some row' /\
       mismas_columnas_fijas row row' /\
       (Factura.origen row <> "SimpleAPI" -> row' = row)).
Proof.
  assert (Hnada : forall w', (forall t, filas t w' = filas t w) ->
            t_uf w' = t_uf w -> t_sync_log w' = t_sync_log w ->
            t_uf w' = t_uf w /\
            (exists nuevas, t_sync_log w' = t_sync_log w ++ nuevas /\ length nuevas <= 2) /\
            (forall t j row, filas t w !! j = Some row ->
               exists row', filas t w' !! j = Some row' /\
                 mismas_columnas_fijas row row' /\
                 (Factura.origen row <> "SimpleAPI" -> row' = row))).
  { intros w' Hf Hu Hs. split; [exact Hu |]. split.
    - exists []. rewrite app_nil_r. split; [exact Hs | simpl; lia].
    - intros t j row Hrow. exists row. rewrite Hf.
      auto using mismas_columnas_refl. }
  destruct (handler_casos E req w) as [H | [H | [H | [H | (b & p & Hv)]]]];
    try (rewrite H; apply Hnada; reflexivity).
  destruct (handler_valida_casos E req b p w Hv)
    as [(m & H) | (resp & datos & Hred & Hok & Hjson)].
  - rewrite H. apply Hnada; reflexivity.
  - destruct (handler_exito_detalle E req b p w resp datos Hv Hred Hok Hjson)
      as (rE & w3 & rR & w4 & HdE & HdR & H).
    rewrite H. simpl. split; [| split].
    + destruct HdE as (_ & _ & _ & _ & HuE & _), HdR as (_ & _ & _ & _ & HuR & _).
      rewrite HuR, HuE. reflexivity.
    + destruct HdE as (_ & _ & _ & _ & _ & _ & nE & HlE & HnE & _).
      destruct HdR as (_ & _ & _ & _ & _ & _ & nR & HlR & HnR & _).
      exists (nE ++ nR). rewrite HlR, HlE, length_app, <- app_assoc.
      split; [reflexivity | lia].
    + intros t j row Hrow.
      assert (Hrow0 : filas t (tras_consulta E p w) !! j = Some row).
      { unfold tras_consulta. rewrite !filas_anotar. exact Hrow. }
      destruct (rama_hecha_fila _ _ _ _ _ _ _ _ _ _ t j row HdE Hrow0)
        as (row1 & H1 & Hc1 & Ho1).
      destruct (rama_hecha_fila _ _ _ _ _ _ _ _ _ _ t j row1 HdR H1)
        as (row2 & H2 & Hc2 & Ho2).
      exists row2. split; [exact H2 |].
      split; [eapply mismas_columnas_trans; eassumption |].
      intros Ho. specialize (Ho1 Ho). subst row1. apply Ho2. exact Ho.
Qed.

(** * Properties of the older variant *)

Lemma consultarVentas_eq (E : Entorno) (mes año : string) (cred : Credenciales.t)
    (w : Mundo) :
  consultarVentas E mes año cred w =
  (match red E (length (llamadas w)) with
   | FetchRechazado m => inl m
   | FetchRespuesta resp =>
       if Response.ok resp then
         match Response.json resp with
         | inl m => inl m
         | inr data => inr (default [] (Rcv.detalleVentas data))
         end
       else inl ("Error SimpleAPI ventas: " +:+ decimal (Response.status resp)
                 +:+ " - " +:+ Response.text resp)
   end,
   anotar (LFetch ("https://servicios.simpleapi.cl/api/RCV/ventas/" +:+ mes
                   +:+ "/" +:+ año) cred) w).
Proof.
  unfold consultarVentas, bind, fetch, throw, elevar, ret.
  destruct (red E (length (llamadas w))) as [m | resp]; [reflexivity |].
  destruct (Response.ok resp); simpl; [| reflexivity].
  destruct (Response.json resp); reflexivity.
Qed.

Lemma consultarCompras_eq (E : Entorno) (mes año : string) (cred : Credenciales.t)
    (w : Mundo) :
  consultarCompras E mes año cred w =
  (match red E (length (llamadas w)) with
   | FetchRechazado m => inl m
   | FetchRespuesta resp =>
       if Response.ok resp then
         match Response.json resp with
         | inl m => inl m
         | inr data => inr (default [] (Rcv.detalleCompras data))
         end
       else inl ("Error SimpleAPI compras: " +:+ decimal (Response.status resp)
                 +:+ " - " +:+ Response.text resp)
   end,
   anotar (LFetch ("https://servicios.simpleapi.cl/api/RCV/compras/" +:+ mes
                   +:+ "/" +:+ año) cred) w).
Proof.
  unfold consultarCompras, bind, fetch, throw, elevar, ret.
  destruct (red E (length (llamadas w))) as [m | resp]; [reflexivity |].
  destruct (Response.ok resp); simpl; [| reflexivity].
  destruct (Response.json resp); reflexivity.
Qed.

Lemma handler_anterior_post (E : Entorno) (req : Request.t) (w : Mundo) :
  Request.method req = "POST" ->
  handler_anterior E req w =
  match intentar_handler_anterior E req w with
  | (inr res, w') => (res, w')
  | (inl m, w') => (responder 500 (CuerpoFallo m), w')
  end.
Proof. intros H. unfold handler_anterior. rewrite H. reflexivity. Qed.

Lemma intentar_handler_anterior_valida (E : Entorno) (req : Request.t)
    (b : Request.json) (p : string) (w : Mundo) :
  valida req b p ->
  intentar_handler_anterior E req w =
  (ventas <- consultarVentas E (substring 5 2 p) (substring 0 4 p) (env E) ;;
   resultadoEmitidas <-
     rama E (procesarFacturasEmitidas_anterior E) "facturas_emitidas" ventas
          (tasa E w) p (Request.userEmail b) ;;
   compras <- consultarCompras E (substring 5 2 p) (substring 0 4 p) (env E) ;;
   resultadoRecibidas <-
     rama E (procesarFacturasRecibidas E) "facturas_recibidas" compras
          (tasa E w) p (Request.userEmail b) ;;
   ret (responder 200 (CuerpoExito
          {| Exito.periodo := p;
             Exito.uf_utilizada := tasa E w;
             Exito.emitidas := lado (length ventas) resultadoEmitidas;
             Exito.recibidas := lado (length compras) resultadoRecibidas;
             Exito.message := mensaje_final resultadoEmitidas resultadoRecibidas |})))
    (anotar (LSelect "uf_valores") w).
Proof.
  intros (Hm & Hb & Hp & Ht).
  unfold intentar_handler_anterior. rewrite Hm, Hb.
  change (negb ("POST" =? "POST")%string) with false. cbv iota.
  unfold bind at 1; unfold elevar at 1; cbv beta iota. rewrite Hp.
  rewrite (periodo_truthy p Ht), Ht. cbn [negb orb].
  rewrite (split_periodo p Ht). cbn [nth].
  unfold bind at 1. rewrite getUFActual_eq. reflexivity.
Qed.

(** Both handlers, for a request that does not pass validation. *)
Lemma handlers_casos (E : Entorno) (req : Request.t) (w : Mundo) :
  (exists res,
     handler E req w = (res, w) /\ handler_anterior E req w = (res, w)) \/
  exists b p, valida req b p.
Proof.
  remember (handler E req w) as h eqn:Hh.
  remember (handler_anterior E req w) as h' eqn:Hh'.
  unfold handler, intentar_handler in Hh.
  unfold handler_anterior, intentar_handler_anterior in Hh'.
  destruct (String.eqb_spec (Request.method req) "OPTIONS") as [Ho | Ho];
    [left; subst; eauto |].
  destruct (String.eqb_spec (Request.method req) "POST") as [Hp | Hp];
    [| left; subst; eauto].
  cbn [negb] in Hh, Hh'. cbv iota in Hh, Hh'.
  destruct (Request.body req) as [b |] eqn:Hb; [| left; subst; eauto].
  unfold bind at 1, elevar at 1 in Hh. cbv beta iota in Hh.
  unfold bind at 1, elevar at 1 in Hh'. cbv beta iota in Hh'.
  destruct (Request.periodo b) as [p |] eqn:Hper; [| left; subst; eauto].
  destruct (test_periodo p) eqn:Ht.
  - right. exists b, p. repeat split; assumption.
  - left. rewrite orb_true_r in Hh, Hh'. subst. eauto.
Qed.

(** X10: the two variants of the handler treat alike every request that
    does not pass validation (OPTIONS, a method other than POST, no body,
    a missing or malformed [periodo]): same answer, and the world left as
    it was. *)
Theorem X10_variantes_validan_igual (E : Entorno) (req : Request.t) (w : Mundo) :
  (forall b p, ~ valida req b p) ->
  handler_anterior E req w = handler E req w /\
  snd (handler_anterior E req w) = w.
Proof.
  intros Hno. destruct (handlers_casos E req w) as [(res & H & H') | (b & p & Hv)].
  - rewrite H, H'. split; reflexivity.
  - destruct (Hno b p Hv).
Qed.

Lemma X10_variantes_validan_igual_witness :
  handler_anterior (entorno sin_fallas red_caida)
    (Request.mk "PUT" (Some (Request.mk_json (Some "2026-01") None)))
    (mundo_con [fila_previa] [])
  = (responder 405 (CuerpoError "Método no permitido"), mundo_con [fila_previa] []).
Proof.
  rewrite (proj1 (X10_variantes_validan_igual (entorno sin_fallas red_caida)
                    (Request.mk "PUT" (Some (Request.mk_json (Some "2026-01") None)))
                    (mundo_con [fila_previa] [])
                    ltac:(intros b p (Hm & _); discriminate Hm))).
  reflexivity.
Defined.

Lemma rama_hecha_filas (E : Entorno) (v : Variante) (tipo : string) (docs : list Doc.t)
    (uf : float) (p : string) (email : option string) (w : Mundo) (r : Resumen.t)
    (w' : Mundo) :
  rama_hecha E v tipo docs uf p email w r w' ->
  length (filas (tabla_de v) w') = length (filas (tabla_de v) w) + Resumen.nuevos r.
Proof.
  intros (wb & Hp & Hf & _).
  destruct (bucle_filas_nuevos E v uf docs Resumen.cero w) as (r2 & w2 & H2 & Hl).
  unfold procesarFacturas in Hp. rewrite Hp in H2. injection H2 as <- <-.
  rewrite Hf. simpl in Hl. lia.
Qed.

(** X11: the older handler can fail after it has written.  For a valid
    request whose sales query succeeded, the sales are reconciled and
    logged before the purchases are asked for; when that second query is
    then answered with a status outside 200-299 the answer is 500 with
    'Error SimpleAPI compras: {status} - {text}', and the rows inserted for
    the sales and their audit row stay in the tables. *)
Theorem X11_anterior_falla_tras_escribir (E : Entorno) (req : Request.t)
    (b : Request.json) (p : string) (w : Mundo) (resp : Response.t)
    (datos : Rcv.json) :
  valida req b p ->
  red E (S (length (llamadas w))) = FetchRespuesta resp ->
  Response.ok resp = true ->
  Response.json resp = inr datos ->
  exists rE w3,
    rama E (procesarFacturasEmitidas_anterior E) "facturas_emitidas"
         (default [] (Rcv.detalleVentas datos)) (tasa E w) p (Request.userEmail b)
         (tras_consulta E p w) = (inr rE, w3) /\
    forall resp2,
      red E (length (llamadas w3)) = FetchRespuesta resp2 ->
      Response.ok resp2 = false ->
      exists w',
        handler_anterior E req w
        = (responder 500
             (CuerpoFallo ("Error SimpleAPI compras: "
                           +:+ decimal (Response.status resp2) +:+ " - "
                           +:+ Response.text resp2)), w') /\
        llamadas w' = llamadas w3 ++ [LFetch (url_compras_de p) (env E)] /\
        length (t_emitidas w') = length (t_emitidas w) + Resumen.nuevos rE /\
        (auditoria_fiable E ->
         t_sync_log w'
         = t_sync_log w
           ++ filas_sync "facturas_emitidas" p (default [] (Rcv.detalleVentas datos))
                rE (Request.userEmail b)).
Proof.
  intros Hv Hred Hok Hjson.
  destruct (rama_detalle E EmitidasAnterior "facturas_emitidas"
              (default [] (Rcv.detalleVentas datos)) (tasa E w) p (Request.userEmail b)
              (tras_consulta E p w)) as (rE & w3 & HE & HdE).
  exists rE, w3. split; [exact HE |].
  intros resp2 Hred2 Hok2.
  exists (anotar (LFetch (url_compras_de p) (env E)) w3). split; [| split; [| split]].
  - rewrite handler_anterior_post by apply Hv.
    rewrite (intentar_handler_anterior_valida E req b p w Hv).
    unfold bind at 1.
    rewrite consultarVentas_eq, length_llamadas_anotar, Hred, Hok, Hjson.
    cbv beta iota. unfold bind at 1.
    unfold tras_consulta, url_de in HE. unfold procesarFacturasEmitidas_anterior.
    rewrite HE. unfold bind at 1.
    rewrite consultarCompras_eq, Hred2, Hok2. reflexivity.
  - reflexivity.
  - pose proof (rama_hecha_filas _ _ _ _ _ _ _ _ _ _ HdE) as Hl. exact Hl.
  - intros Ha. destruct HdE as (_ & _ & _ & _ & _ & _ & n & Hn & _ & Han & _).
    simpl. rewrite Hn, (Han Ha). reflexivity.
Qed.

Lemma X11_anterior_falla_tras_escribir_witness :
  exists w',
    handler_anterior (entorno sin_fallas (red_solo_ventas [doc_de 100 3800000]))
                     (peticion "2026-01") (mundo_con [] [])
    = (responder 500
         (CuerpoFallo "Error SimpleAPI compras: 503 - Service Unavailable"), w') /\
    length (t_emitidas w') = 1 /\
    SyncLog.tipo_sync <$> t_sync_log w' = ["facturas_emitidas"].
Proof.
  destruct (X11_anterior_falla_tras_escribir
              (entorno sin_fallas (red_solo_ventas [doc_de 100 3800000]))
              (peticion "2026-01")
              (Request.mk_json (Some "2026-01") (Some "jere@tho.cl")) "2026-01"
              (mundo_con [] [])
              (Response.mk 200 "" (inr (Rcv.mk_json (Some [doc_de 100 3800000]) None)))
              (Rcv.mk_json (Some [doc_de 100 3800000]) None)
              (conj eq_refl (conj eq_refl (conj eq_refl eq_refl)))
              eq_refl eq_refl eq_refl)
    as (rE & w3 & HE & Hcont).
  vm_compute in HE. injection HE as <- <-.
  destruct (Hcont (Response.mk 503 "Service Unavailable"
                     (inl "Unexpected token S in JSON")) eq_refl eq_refl)
    as (w' & H & _ & Hl & Hs).
  exists w'. split; [exact H |]. split; [exact Hl |].
  rewrite Hs by (intros n; reflexivity). reflexivity.
Defined.

(** X12: when the first query of the older handler, the one for the
    sales, is answered with a status outside 200-299, the answer is 500
    with 'Error SimpleAPI ventas: {status} - {text}' and no table is
    changed. *)
Theorem X12_anterior_falla_ventas (E : Entorno) (req : Request.t) (b : Request.json)
    (p : string) (w : Mundo) (resp : Response.t) :
  valida req b p ->
  red E (S (length (llamadas w))) = FetchRespuesta resp ->
  Response.ok resp = false ->
  handler_anterior E req w
  = (responder 500
       (CuerpoFallo ("Error SimpleAPI ventas: " +:+ decimal (Response.status resp)
                     +:+ " - " +:+ Response.text resp)),
     tras_consulta E p w) /\
  (forall t, filas t (tras_consulta E p w) = filas t w) /\
  t_sync_log (tras_consulta E p w) = t_sync_log w.
Proof.
  intros Hv Hred Hok. split; [| split; [intros t; destruct t |]; reflexivity].
  rewrite handler_anterior_post by apply Hv.
  rewrite (intentar_handler_anterior_valida E req b p w Hv).
  unfold bind at 1.
  rewrite consultarVentas_eq, length_llamadas_anotar, Hred, Hok. reflexivity.
Qed.

Lemma X12_anterior_falla_ventas_witness :
  fst (handler_anterior (entorno sin_fallas (red_estado 401 "Unauthorized"))
         (peticion "2026-01") (mundo_con [fila_previa] []))
  = responder 500 (CuerpoFallo "Error SimpleAPI ventas: 401 - Unauthorized").
Proof.
  rewrite (proj1 (X12_anterior_falla_ventas
                    (entorno sin_fallas (red_estado 401 "Unauthorized"))
                    (peticion "2026-01")
                    (Request.mk_json (Some "2026-01") (Some "jere@tho.cl")) "2026-01"
                    (mundo_con [fila_previa] [])
                    (Response.mk 401 "Unauthorized" (inl "Unexpected token U in JSON"))
                    (conj eq_refl (conj eq_refl (conj eq_refl eq_refl)))
                    eq_refl eq_refl)).
  reflexivity.
Defined.

(** * Further properties of the rows written *)

Lemma coincide_true (f : Z) (row : Factura.t) :
  coincide f row = true ->
  Factura.numero_folio row = f /\ Factura.origen row = "SimpleAPI".
Proof.
  unfold coincide. intros H. apply andb_prop in H. destruct H as (Hf & Ho).
  split; [apply Z.eqb_eq, Hf | apply String.eqb_eq, Ho].
Qed.

Lemma escrita_factura (v : Variante) (doc : Doc.t) (uf : float) (fecha : valor)
    (ts : string) :
  escrita [doc] uf (factura v doc uf fecha ts).
Proof.
  split; [destruct v; reflexivity |].
  exists doc. split; [left; reflexivity |]. destruct v; repeat split.
Qed.

Lemma escrita_mas (docs docs' : list Doc.t) (uf : float) (row : Factura.t) :
  (forall d, In d docs -> In d docs') -> escrita docs uf row -> escrita docs' uf row.
Proof. intros Hinc (Ho & d & Hd & H). split; [exact Ho |]. exists d. auto. Qed.

(** After a turn, a row is the one that was there, or one written for the
    document. *)
Lemma paso_escrita (E : Entorno) (v : Variante) (uf : float) (r : Resumen.t)
    (doc : Doc.t) (w : Mundo) (t : TablaFacturas) (j : nat) (row' : Factura.t) :
  filas t (snd (procesarDocumento E v uf r doc w)) !! j = Some row' ->
  filas t w !! j = Some row' \/ escrita [doc] uf row'.
Proof.
  rewrite procesarDocumento_eq.
  destruct (fecha_emision_de (Doc.fechaEmision doc)) as [m | fecha]; [auto |].
  simpl. destruct (buscar E (tabla_de v) (Doc.folio doc) w) as [id |] eqn:Hb; simpl.
  - match goal with
    | |- context [tras_escritura E ?a ?c ?e w] =>
        destruct (filas_tras_escritura E a t c e w) as [-> | (-> & _ & ->)]
    end; [auto |].
    destruct (buscar_Some _ _ _ _ _ Hb) as (fila & Hfila & Hco).
    destruct (Nat.eq_dec id j) as [-> | Hne].
    + rewrite list_lookup_alter_eq, Hfila; simpl. intros H. injection H as <-.
      right. destruct (coincide_true _ _ Hco) as (Hfo & Hor).
      split; [exact Hor |]. exists doc. split; [left; reflexivity |].
      rewrite monto_uf_factura. destruct v; repeat split; exact Hfo.
    + rewrite list_lookup_alter_ne by exact Hne. auto.
  - match goal with
    | |- context [tras_escritura E ?a ?c ?e w] =>
        destruct (filas_tras_escritura E a t c e w) as [-> | (-> & _ & ->)]
    end; [auto |].
    intros H. destruct (Nat.lt_ge_cases j (length (filas (tabla_de v) w))) as [Hlt | Hge].
    + rewrite lookup_app_l in H by exact Hlt. auto.
    + rewrite lookup_app_r in H by exact Hge. right.
      destruct (j - length (filas (tabla_de v) w)) as [| k]; simpl in H;
        [| discriminate].
      injection H as <-. apply escrita_factura.
Qed.

(** X13: whatever the datastore answers, after a run at the rate
    [ufActual] every row of an invoice table is either exactly the row
    that was at that place before, or a row with origen 'SimpleAPI' whose
    folio is the folio of a document of the run, whose [monto_clp] is the
    total of that document and whose [monto_uf] is that total converted
    at [ufActual]. *)
Theorem X13_filas_escritas (E : Entorno) (v : Variante) (documentos : list Doc.t)
    (ufActual : float) (w : Mundo) (t : TablaFacturas) (j : nat) (row' : Factura.t) :
  filas t (snd (procesarFacturas E v documentos ufActual w)) !! j = Some row' ->
  filas t w !! j = Some row' \/ escrita documentos ufActual row'.
Proof.
  unfold procesarFacturas. generalize Resumen.cero. revert w.
  induction documentos as [| doc docs IH]; intros w r H; [left; exact H |].
  simpl in H. unfold bind in H.
  destruct (procesarDocumento_delta E v ufActual doc w) as (d & w1 & _ & Hd).
  pose proof (paso_escrita E v ufActual r doc w t j row') as Hpaso.
  rewrite Hd in H, Hpaso. simpl in Hpaso.
  destruct (IH _ _ H) as [H1 | Hq].
  - destruct (Hpaso H1) as [H0 | Hq]; [left; exact H0 |].
    right. eapply escrita_mas; [| exact Hq]. intros d' [<- | []]. left. reflexivity.
  - right. eapply escrita_mas; [| exact Hq]. intros d' Hd'. right. exact Hd'.
Qed.

Lemma X13_filas_escritas_witness :
  escrita [doc_de 100 3800000; doc_de 101 5000] 38000
    (factura Emitidas (doc_de 101 5000) 38000 (VStr "2026-01-15")
             "2026-02-01T09:00:00.000Z").
Proof.
  destruct (X13_filas_escritas (entorno sin_fallas red_caida) Emitidas
              [doc_de 100 3800000; doc_de 101 5000] 38000
              (mundo_con [fila_previa] []) facturas_emitidas 1
              (factura Emitidas (doc_de 101 5000) 38000 (VStr "2026-01-15")
                       "2026-02-01T09:00:00.000Z") eq_refl) as [H | H].
  - discriminate H.
  - exact H.
Defined.

(** ** The row of a new folio *)

Lemma split_hd (c : ascii) (s : string) :
  contiene c (hd "" (split c s)) = false /\
  exists resto,
    s = hd "" (split c s) +:+ resto /\ (resto = "" \/ exists r, resto = String c r).
Proof.
  induction s as [| a s IH]; simpl.
  - split; [reflexivity |]. exists "". auto.
  - destruct (Ascii.eqb_spec a c) as [-> | Hne]; simpl.
    + split; [reflexivity |]. exists (String c s). split; [reflexivity |]. eauto.
    + destruct IH as (Hno & resto & Hs & Hresto).
      assert (Hhd : hd "" (match split c s with
                           | [] => [String a ""]
                           | p :: ps => String a p :: ps
                           end) = String a (hd "" (split c s))).
      { destruct (split c s); reflexivity. }
      rewrite Hhd. simpl. split.
      * rewrite Hno. destruct (Ascii.eqb_spec a c); [contradiction | reflexivity].
      * exists resto. split; [| exact Hresto].
        change (String a (hd "" (split c s)) +:+ resto)
          with (String a (hd "" (split c s) +:+ resto)).
        f_equal. exact Hs.
Qed.

Lemma fecha_emision_de_spec (v fecha : valor) :
  fecha_emision_de v = inr fecha ->
  fecha = VNull \/
  exists d s, v = VStr s /\ fecha = VStr d /\ d <> "" /\ es_parte_fecha d s.
Proof.
  destruct v as [| | b | x | s]; simpl; intros H; try discriminate;
    try (injection H as <-; left; reflexivity).
  injection H as <-. unfold js_or. simpl.
  destruct (String.eqb_spec (hd "" (split "T" s)) "") as [He | Hne]; simpl;
    [left; reflexivity |].
  right. exists (hd "" (split "T" s)), s. repeat split; try assumption;
    apply (split_hd "T" s).
Qed.

Lemma js_or_truthy (a : valor) (s : string) :
  s <> "" -> truthy (js_or a (VStr s)) = true.
Proof.
  intros Hs. unfold js_or. destruct (truthy a) eqn:Ha; [exact Ha |]. simpl.
  destruct (String.eqb_spec s ""); [contradiction | reflexivity].
Qed.

(** X14: a document whose lookup finds no row and whose insert is
    accepted adds exactly one row, at the end of its table, and counts in
    [nuevos].  The row has the folio of the document and origen
    'SimpleAPI'; its counterparty name and its status are never falsy (an
    absent or empty value is replaced by the default); and its
    [fecha_emision] is null or the non-empty text that precedes the first
    'T' of [fechaEmision]. *)
Theorem X14_fila_nueva (E : Entorno) (v : Variante) (ufActual : float) (r : Resumen.t)
    (doc : Doc.t) (w : Mundo) (fecha : valor) :
  fecha_emision_de (Doc.fechaEmision doc) = inr fecha ->
  buscar E (tabla_de v) (Doc.folio doc) w = None ->
  falla E (LInsert (nombre (tabla_de v))) (S (length (llamadas w))) = None ->
  exists w' row,
    procesarDocumento E v ufActual r doc w = (inr (mas_nuevo r), w') /\
    filas (tabla_de v) w' = filas (tabla_de v) w ++ [row] /\
    Factura.numero_folio row = Doc.folio doc /\
    Factura.origen row = "SimpleAPI" /\
    truthy (Factura.contraparte row) = true /\
    truthy (Factura.estado row) = true /\
    Factura.monto_clp row = Doc.montoTotal doc /\
    Factura.tipo_documento row = Doc.tipoDTE doc /\
    Factura.fecha_emision row = fecha /\
    (fecha = VNull \/
     exists d s, Doc.fechaEmision doc = VStr s /\ fecha = VStr d /\ d <> ""
                 /\ es_parte_fecha d s).
Proof.
  intros Hf Hb Hi. rewrite procesarDocumento_eq, Hf; simpl. rewrite Hb, Hi.
  eexists _, _. split; [reflexivity |]. unfold tras_escritura. rewrite Hi.
  split; [apply filas_con_filas |].
  pose proof (fecha_emision_de_spec _ _ Hf) as Hfecha.
  destruct v; simpl; repeat split; try exact Hfecha;
    apply js_or_truthy; discriminate.
Qed.

Lemma X14_fila_nueva_witness :
  exists w' row,
    procesarDocumento (entorno sin_fallas red_caida) Recibidas 38000 Resumen.cero
      (Doc.mk 7 (VStr "") VUndefined (VStr "77.654.321-0")
              (VStr "2026-01-15T10:30:00") 76000 VNull (VNum 33))
      (mundo_con [] []) = (inr (mas_nuevo Resumen.cero), w') /\
    t_recibidas w' = [row] /\
    truthy (Factura.contraparte row) = true /\
    truthy (Factura.estado row) = true /\
    Factura.fecha_emision row = VStr "2026-01-15".
Proof.
  destruct (X14_fila_nueva (entorno sin_fallas red_caida) Recibidas 38000 Resumen.cero
              (Doc.mk 7 (VStr "") VUndefined (VStr "77.654.321-0")
                      (VStr "2026-01-15T10:30:00") 76000 VNull (VNum 33))
              (mundo_con [] []) (VStr "2026-01-15") eq_refl eq_refl eq_refl)
    as (w' & row & H & Hfilas & _ & _ & Hc & He & _ & _ & Hfe & _).
  exists w', row. repeat split; assumption.
Defined.

(** ** The calls of a run *)

Lemma llamadas_tras_escritura (E : Entorno) (t : TablaFacturas) (c : Llamada)
    (escrito : list Factura.t) (w : Mundo) :
  llamadas (tras_escritura E t c escrito w) = llamadas w ++ [LSelect (nombre t); c].
Proof.
  unfold tras_escritura.
  destruct (falla E c (S (length (llamadas w)))); destruct t; simpl;
    rewrite <- app_assoc; reflexivity.
Qed.

Lemma es_de_tabla_select (t : TablaFacturas) :
  es_de_tabla (nombre t) (LSelect (nombre t)) = true.
Proof. destruct t; reflexivity. Qed.

Lemma paso_llamadas (E : Entorno) (v : Variante) (uf : float) (r : Resumen.t)
    (doc : Doc.t) (w : Mundo) :
  exists l,
    llamadas (snd (procesarDocumento E v uf r doc w)) = llamadas w ++ l /\
    length l <= 2 /\
    Forall (fun c => es_de_tabla (nombre (tabla_de v)) c = true) l.
Proof.
  rewrite procesarDocumento_eq.
  destruct (fecha_emision_de (Doc.fechaEmision doc)) as [m | fecha].
  { exists []. simpl. rewrite app_nil_r. auto. }
  simpl. destruct (buscar E (tabla_de v) (Doc.folio doc) w) as [id |]; simpl;
    rewrite llamadas_tras_escritura; eexists; (split; [reflexivity |]);
    (split; [simpl; lia |]);
    repeat constructor; destruct v; reflexivity.
Qed.

(** X15: a run issues at most two calls per document (a lookup, and at
    most one write; a failed call is never retried), all of them queries
    of the datastore about its own table: it never queries the remote
    service, the other invoice table, [uf_valores] or [sii_sync_log]. *)
Theorem X15_llamadas_de_un_run (E : Entorno) (v : Variante) (documentos : list Doc.t)
    (ufActual : float) (w : Mundo) :
  exists l,
    llamadas (snd (procesarFacturas E v documentos ufActual w)) = llamadas w ++ l /\
    length l <= 2 * length documentos /\
    Forall (fun c => es_de_tabla (nombre (tabla_de v)) c = true) l.
Proof.
  unfold procesarFacturas. generalize Resumen.cero. revert w.
  induction documentos as [| doc docs IH]; intros w r.
  - exists []. simpl. rewrite app_nil_r. auto.
  - destruct (paso_llamadas E v ufActual r doc w) as (l1 & Hl1 & Hn1 & Hf1).
    destruct (procesarDocumento_delta E v ufActual doc w) as (d & w1 & _ & Hd).
    rewrite Hd in Hl1. simpl in Hl1.
    destruct (IH w1 (sumar r d)) as (l2 & Hl2 & Hn2 & Hf2).
    exists (l1 ++ l2). simpl bucle. unfold bind. rewrite Hd.
    split; [rewrite Hl2, Hl1, app_assoc; reflexivity |].
    split; [rewrite length_app; simpl; lia |].
    apply Forall_app; auto.
Qed.

(** ** The older handler when both queries succeed *)


